(** * The whiteboard canvas controller ([canvas.tsx]) as state-passing functions

    The component keeps three pieces of React state ([canvasState], [camera],
    [lastUsedColor]) and talks to three collaborators: the shared storage
    ([layers], a live map from layer id to layer, and [layerIds], a live
    list), the presence of the local user, and the undo history.  Every
    callback of the component becomes a function [State -> State].

    Conventions of the embedding.
    - A JavaScript number is an integer [Z] (canvas coordinates); the pressure
      of a pen sample, which the component only stores, is a rational [Q].
    - A callback reads the [canvasState] of the render it was created in and
      [setCanvasState] takes effect at the next render.  No callback reads
      [canvasState] after writing it, and every path writes it at most once,
      so reading from and writing to the one [canvasState] field of the
      state agrees with the component as long as a render happens between
      two events.
    - [nanoid()] is called at most once per event; the id it returns is an
      argument of the functions that call it. *)

From Stdlib Require Import ZArith QArith.
From stdpp Require Import gmap strings list fin_maps.

Local Open Scope Z_scope.

(** ** Data model *)

(** Modelled from the spec: the declarations of [@/types/canvas] ([Point],
    [Camera], [Color], [XYWH], [Side], [LayerType], the layer types and
    [CanvasState]) are not part of the sources; the fields are the ones the
    component reads and writes, completed by section 3 of the
    specification. *)
Module Point.
Record t := mk { x : Z; y : Z }.
End Point.

Module Camera.
Record t := mk { x : Z; y : Z }.
End Camera.

Module Color.
Record t := mk { r : Z; g : Z; b : Z }.
End Color.

Module XYWH.
Record t := mk { x : Z; y : Z; width : Z; height : Z }.
End XYWH.

(** The eight handles of a selection box. *)
Inductive Side :=
| Top | Bottom | Left | Right
| TopLeft | TopRight | BottomLeft | BottomRight.

Module LayerType.
Inductive t := Rectangle | Ellipse | Path | Text | Note.
End LayerType.

(** The argument type of [insertLayer]:
    [LayerType.Ellipse | LayerType.Rectangle | LayerType.Text | LayerType.Note]. *)
Inductive ShapeType := Ellipse | Rectangle | Text | Note.

Definition layerTypeOf (t : ShapeType) : LayerType.t :=
  match t with
  | Ellipse => LayerType.Ellipse
  | Rectangle => LayerType.Rectangle
  | Text => LayerType.Text
  | Note => LayerType.Note
  end.

(** One pen sample [[x, y, pressure]]. *)
Definition Sample : Type := Z * Z * Q.

Module Layer.
Record t := mk {
  type : LayerType.t;
  x : Z;
  y : Z;
  height : Z;
  width : Z;
  fill : Color.t;
  points : option (list Sample)
}.

(** [layer.update({ x, y })] on the live object. *)
Definition update_xy (nx ny : Z) (l : t) : t :=
  mk (type l) nx ny (height l) (width l) (fill l) (points l).

(** The layer moved by [(dx, dy)]: what [translateSelectedLayers] writes
    for an offset [(dx, dy)]. *)
Definition translate (dx dy : Z) (l : t) : t :=
  update_xy (x l + dx) (y l + dy) l.

(** [layer.update(bounds)] with [bounds = { x, y, width, height }]. *)
Definition update_bounds (b : XYWH.t) (l : t) : t :=
  mk (type l) (XYWH.x b) (XYWH.y b) (XYWH.height b) (XYWH.width b)
     (fill l) (points l).
End Layer.

Module CanvasMode.
Inductive t :=
| None | Pressing | SelectionNet | Translating | Inserting | Resizing | Pencil.
End CanvasMode.

Global Instance CanvasMode_eq_dec : EqDecision CanvasMode.t.
Proof. solve_decision. Defined.

Inductive CanvasState :=
| StateNone
| StatePressing (origin : Point.t)
| StateSelectionNet (origin current : Point.t)
| StateTranslating (current : Point.t)
| StateInserting (layerType : ShapeType)
| StateResizing (initialBounds : XYWH.t) (corner : Side)
| StatePencil.

Definition mode (c : CanvasState) : CanvasMode.t :=
  match c with
  | StateNone => CanvasMode.None
  | StatePressing _ => CanvasMode.Pressing
  | StateSelectionNet _ _ => CanvasMode.SelectionNet
  | StateTranslating _ => CanvasMode.Translating
  | StateInserting _ => CanvasMode.Inserting
  | StateResizing _ _ => CanvasMode.Resizing
  | StatePencil => CanvasMode.Pencil
  end.

(** The presence of the local user. *)
Module Presence.
Record t := mk {
  selection : list string;
  cursor : option Point.t;
  pencilDraft : option (list Sample);
  penColor : option Color.t
}.
End Presence.

(** The argument of [setMyPresence]: a partial presence.  A field that is
    [None] is absent from the object literal; [Some None] writes [null]. *)
Module Patch.
Record t := mk {
  selection : option (list string);
  cursor : option (option Point.t);
  pencilDraft : option (option (list Sample));
  penColor : option (option Color.t)
}.

Definition apply (p : t) (me : Presence.t) : Presence.t :=
  Presence.mk
    (default (Presence.selection me) (selection p))
    (default (Presence.cursor me) (cursor p))
    (default (Presence.pencilDraft me) (pencilDraft p))
    (default (Presence.penColor me) (penColor p)).

Definition of_selection (ids : list string) : t :=
  mk (Some ids) None None None.
Definition of_cursor (c : option Point.t) : t :=
  mk None (Some c) None None.
Definition of_pencilDraft (d : option (list Sample)) : t :=
  mk None None (Some d) None.
End Patch.

(** What the component can observe of the undo history: whether recording is
    paused ([history.pause()] / [history.resume()]) and the presence writes
    that asked to be recorded ([{ addToHistory: true }]), oldest first. *)
Module History.
Record t := mk { paused : bool; undoable : list Patch.t }.
End History.

Record State := mkState {
  canvasState : CanvasState;
  camera : Camera.t;
  lastUsedColor : Color.t;
  layers : gmap string Layer.t;
  layerIds : list string;
  presence : Presence.t;
  history : History.t
}.

Module PointerEvent.
Record t := mk { clientX : Z; clientY : Z; buttons : Z; pressure : Q }.
End PointerEvent.

Module WheelEvent.
Record t := mk { deltaX : Z; deltaY : Z }.
End WheelEvent.

Definition MAX_LAYERS : nat := 100.

(** ** The collaborators' operations *)

Definition setCanvasState (c : CanvasState) (s : State) : State :=
  mkState c (camera s) (lastUsedColor s) (layers s) (layerIds s)
          (presence s) (history s).

Definition setCamera (f : Camera.t -> Camera.t) (s : State) : State :=
  mkState (canvasState s) (f (camera s)) (lastUsedColor s) (layers s)
          (layerIds s) (presence s) (history s).

(** [liveLayers.set(id, layer)], and the write-back of [layer.update]. *)
Definition liveLayers_set (id : string) (l : Layer.t) (s : State) : State :=
  mkState (canvasState s) (camera s) (lastUsedColor s) (<[id := l]> (layers s))
          (layerIds s) (presence s) (history s).

(** [liveLayerIds.push(id)]. *)
Definition liveLayerIds_push (id : string) (s : State) : State :=
  mkState (canvasState s) (camera s) (lastUsedColor s) (layers s)
          (layerIds s ++ [id]) (presence s) (history s).

(** [setMyPresence(patch, { addToHistory })]. *)
Definition setMyPresence (p : Patch.t) (addToHistory : bool) (s : State) : State :=
  mkState (canvasState s) (camera s) (lastUsedColor s) (layers s) (layerIds s)
          (Patch.apply p (presence s))
          (if addToHistory
           then History.mk (History.paused (history s))
                           (History.undoable (history s) ++ [p])
           else history s).

Definition history_pause (s : State) : State :=
  mkState (canvasState s) (camera s) (lastUsedColor s) (layers s) (layerIds s)
          (presence s) (History.mk true (History.undoable (history s))).

Definition history_resume (s : State) : State :=
  mkState (canvasState s) (camera s) (lastUsedColor s) (layers s) (layerIds s)
          (presence s) (History.mk false (History.undoable (history s))).

(** ** The component *)

(** The helpers of [@/lib/utils] are not part of the sources: the component
    is modelled over any implementation of them. *)
Class Utils := {
  pointerEventToCanvasPoint : PointerEvent.t -> Camera.t -> Point.t;
  findIntersectingLayersWithRectangle :
    list string -> gmap string Layer.t -> Point.t -> Point.t -> list string;
  resizeBounds : XYWH.t -> Side -> Point.t -> XYWH.t;
  penPointsToPathLayer : list Sample -> Color.t -> Layer.t
}.

Section Canvas.

Context {U : Utils}.

Definition insertLayer (layerId : string) (layerType : ShapeType)
    (position : Point.t) (s : State) : State :=
  if decide (MAX_LAYERS ≤ size (layers s))%nat then s
  else
    let layer :=
      Layer.mk (layerTypeOf layerType) (Point.x position) (Point.y position)
               100 100 (lastUsedColor s) None in
    let s := liveLayerIds_push layerId s in
    let s := liveLayers_set layerId layer s in
    let s := setMyPresence (Patch.of_selection [layerId]) true s in
    setCanvasState StateNone s.

Definition unselectLayers (s : State) : State :=
  if decide (0 < length (Presence.selection (presence s)))%nat
  then setMyPresence (Patch.of_selection []) true s
  else s.

Definition insertPath (id : string) (s : State) : State :=
  match Presence.pencilDraft (presence s) with
  | None => setMyPresence (Patch.of_pencilDraft None) false s
  | Some pencilDraft =>
      if decide (length pencilDraft < 2 ∨ MAX_LAYERS ≤ size (layers s))%nat
      then setMyPresence (Patch.of_pencilDraft None) false s
      else
        let s :=
          liveLayers_set id (penPointsToPathLayer pencilDraft (lastUsedColor s)) s in
        let s := liveLayerIds_push id s in
        let s := setMyPresence (Patch.of_pencilDraft None) false s in
        setCanvasState StatePencil s
  end.

Definition startMultiSelection (current origin : Point.t) (s : State) : State :=
  if decide (Z.abs (Point.x current - Point.x origin)
             + Z.abs (Point.y current - Point.y origin) > 5)
  then setCanvasState (StateSelectionNet origin current) s
  else s.

Definition updateSelectionNet (current origin : Point.t) (s : State) : State :=
  let layers_snapshot := layers s in
  let s := setCanvasState (StateSelectionNet origin current) s in
  let ids :=
    findIntersectingLayersWithRectangle (layerIds s) layers_snapshot
                                        origin current in
  setMyPresence (Patch.of_selection ids) false s.

(** The body of the [for] loop of [translateSelectedLayers]. *)
Definition translateLayer (offset : Point.t) (s : State) (id : string) : State :=
  match layers s !! id with
  | Some layer =>
      liveLayers_set id
        (Layer.update_xy (Layer.x layer + Point.x offset)
                         (Layer.y layer + Point.y offset) layer) s
  | None => s
  end.

Definition translateSelectedLayers (point : Point.t) (s : State) : State :=
  match canvasState s with
  | StateTranslating current =>
      let offset :=
        Point.mk (Point.x point - Point.x current)
                 (Point.y point - Point.y current) in
      let s := foldl (translateLayer offset) s (Presence.selection (presence s)) in
      setCanvasState (StateTranslating point) s
  | _ => s
  end.

Definition resizeSelectedLayer (point : Point.t) (s : State) : State :=
  match canvasState s with
  | StateResizing initialBounds corner =>
      let bounds := resizeBounds initialBounds corner point in
      match Presence.selection (presence s) !! 0%nat with
      | Some id =>
          match layers s !! id with
          | Some layer => liveLayers_set id (Layer.update_bounds bounds layer) s
          | None => s
          end
      | None => s
      end
  | _ => s
  end.

(** [pencilDraft.length === 1 && pencilDraft[0][0] === point.x &&
    pencilDraft[0][1] === point.y]. *)
Definition isSamePoint (pencilDraft : list Sample) (point : Point.t) : bool :=
  bool_decide (length pencilDraft = 1%nat)
  && bool_decide (fst ∘ fst <$> pencilDraft !! 0%nat = Some (Point.x point))
  && bool_decide (snd ∘ fst <$> pencilDraft !! 0%nat = Some (Point.y point)).

Definition continueDrawing (point : Point.t) (e : PointerEvent.t)
    (s : State) : State :=
  if decide (mode (canvasState s) ≠ CanvasMode.Pencil
             ∨ PointerEvent.buttons e ≠ 1)
  then s
  else
    match Presence.pencilDraft (presence s) with
    | None => s
    | Some pencilDraft =>
        setMyPresence
          (Patch.mk None (Some (Some point))
             (Some (Some
                (if isSamePoint pencilDraft point then pencilDraft
                 else pencilDraft
                      ++ [(Point.x point, Point.y point, PointerEvent.pressure e)])))
             None)
          false s
    end.

Definition startDrawing (point : Point.t) (pressure : Q) (s : State) : State :=
  setMyPresence
    (Patch.mk None None
       (Some (Some [(Point.x point, Point.y point, pressure)]))
       (Some (Some (lastUsedColor s))))
    false s.

Definition onWheel (e : WheelEvent.t) (s : State) : State :=
  setCamera (fun camera =>
    Camera.mk (Camera.x camera - WheelEvent.deltaX e)
              (Camera.y camera - WheelEvent.deltaY e)) s.

Definition onPointerMove (e : PointerEvent.t) (s : State) : State :=
  let current := pointerEventToCanvasPoint e (camera s) in
  let s :=
    match canvasState s with
    | StatePressing origin => startMultiSelection current origin s
    | StateSelectionNet origin _ => updateSelectionNet current origin s
    | StateTranslating _ => translateSelectedLayers current s
    | StateResizing _ _ => resizeSelectedLayer current s
    | StatePencil => continueDrawing current e s
    | _ => s
    end in
  setMyPresence (Patch.of_cursor (Some current)) false s.

Definition onPointerLeave (s : State) : State :=
  setMyPresence (Patch.of_cursor None) false s.

Definition onPointerDown (e : PointerEvent.t) (s : State) : State :=
  let point := pointerEventToCanvasPoint e (camera s) in
  match canvasState s with
  | StateInserting _ => s
  | StatePencil => startDrawing point (PointerEvent.pressure e) s
  | _ => setCanvasState (StatePressing point) s
  end.

Definition onPointerUp (id : string) (e : PointerEvent.t) (s : State) : State :=
  let point := pointerEventToCanvasPoint e (camera s) in
  let s :=
    match canvasState s with
    | StateNone | StatePressing _ =>
        setCanvasState StateNone (unselectLayers s)
    | StatePencil => insertPath id s
    | StateInserting layerType => insertLayer id layerType point s
    | _ => setCanvasState StateNone s
    end in
  history_resume s.

Definition onLayerPointerDown (e : PointerEvent.t) (layerId : string)
    (s : State) : State :=
  match canvasState s with
  | StatePencil | StateInserting _ => s
  | _ =>
      let s := history_pause s in
      let point := pointerEventToCanvasPoint e (camera s) in
      let s :=
        if decide (layerId ∈ Presence.selection (presence s)) then s
        else setMyPresence (Patch.of_selection [layerId]) true s in
      setCanvasState (StateTranslating point) s
  end.

(** *** Event dispatch

    The [<svg>] element registers [onWheel], [onPointerMove],
    [onPointerLeave], [onPointerDown] and [onPointerUp]; each layer is
    given [onLayerPointerDown].  No other listener is registered. *)
Inductive Event :=
| Wheel (e : WheelEvent.t)
| PointerMove (e : PointerEvent.t)
| PointerLeave
| PointerDown (e : PointerEvent.t)
| PointerUp (e : PointerEvent.t)
| LayerPointerDown (e : PointerEvent.t) (layerId : string)
| Unhandled (type : string).

(** [onLayerPointerDown] returns before [e.stopPropagation()] in the
    modes Pencil and Inserting: the event then reaches the [<svg>]. *)
Definition dispatch (id : string) (ev : Event) (s : State) : State :=
  match ev with
  | Wheel e => onWheel e s
  | PointerMove e => onPointerMove e s
  | PointerLeave => onPointerLeave s
  | PointerDown e => onPointerDown e s
  | PointerUp e => onPointerUp id e s
  | LayerPointerDown e layerId =>
      match canvasState s with
      | StatePencil | StateInserting _ =>
          onPointerDown e (onLayerPointerDown e layerId s)
      | _ => onLayerPointerDown e layerId s
      end
  | Unhandled _ => s
  end.

(** A sequence of events, each with the id [nanoid()] would return. *)
Definition run (evs : list (string * Event)) (s : State) : State :=
  foldl (fun s '(id, ev) => dispatch id ev s) s evs.

End Canvas.

(** ** A reference implementation of the helpers *)

(** Modelled from the spec: the functions of [@/lib/utils], absent from the
    sources, as section 4.1 of the specification describes them.  They
    serve to run the component on concrete inputs; the theorems hold for
    every implementation.  The fixed viewport offset of
    [pointerEventToCanvasPoint], which the specification does not give, is
    taken to be zero. *)
Module SpecUtils.

Definition pointerEventToCanvasPoint (e : PointerEvent.t) (camera : Camera.t)
    : Point.t :=
  Point.mk (PointerEvent.clientX e - Camera.x camera)
           (PointerEvent.clientY e - Camera.y camera).

Definition intersects (a b : Point.t) (l : Layer.t) : bool :=
  let left := Z.min (Point.x a) (Point.x b) in
  let right := Z.max (Point.x a) (Point.x b) in
  let top := Z.min (Point.y a) (Point.y b) in
  let bottom := Z.max (Point.y a) (Point.y b) in
  negb ((right <? Layer.x l)
        || (Layer.x l + Layer.width l <? left)
        || (bottom <? Layer.y l)
        || (Layer.y l + Layer.height l <? top)).

Definition findIntersectingLayersWithRectangle (layerIds : list string)
    (layers : gmap string Layer.t) (a b : Point.t) : list string :=
  filter (fun id => from_option (intersects a b) false (layers !! id) = true)
         layerIds.

Definition movesLeft (c : Side) : bool :=
  match c with Left | TopLeft | BottomLeft => true | _ => false end.
Definition movesRight (c : Side) : bool :=
  match c with Right | TopRight | BottomRight => true | _ => false end.
Definition movesTop (c : Side) : bool :=
  match c with Top | TopLeft | TopRight => true | _ => false end.
Definition movesBottom (c : Side) : bool :=
  match c with Bottom | BottomLeft | BottomRight => true | _ => false end.

Definition resizeBounds (bounds : XYWH.t) (corner : Side) (point : Point.t)
    : XYWH.t :=
  let right := XYWH.x bounds + XYWH.width bounds in
  let bottom := XYWH.y bounds + XYWH.height bounds in
  let '(x, width) :=
    if movesLeft corner
    then (Z.min (Point.x point) right, Z.abs (right - Point.x point))
    else if movesRight corner
    then (Z.min (Point.x point) (XYWH.x bounds),
          Z.abs (Point.x point - XYWH.x bounds))
    else (XYWH.x bounds, XYWH.width bounds) in
  let '(y, height) :=
    if movesTop corner
    then (Z.min (Point.y point) bottom, Z.abs (bottom - Point.y point))
    else if movesBottom corner
    then (Z.min (Point.y point) (XYWH.y bounds),
          Z.abs (Point.y point - XYWH.y bounds))
    else (XYWH.y bounds, XYWH.height bounds) in
  XYWH.mk x y width height.

Definition minimum (d : Z) (l : list Z) : Z := foldr Z.min (hd d l) l.
Definition maximum (d : Z) (l : list Z) : Z := foldr Z.max (hd d l) l.

Definition penPointsToPathLayer (points : list Sample) (color : Color.t)
    : Layer.t :=
  let xs := (fst ∘ fst) <$> points in
  let ys := (snd ∘ fst) <$> points in
  let left := minimum 0 xs in
  let top := minimum 0 ys in
  Layer.mk LayerType.Path left top
           (maximum 0 ys - top) (maximum 0 xs - left) color
           (Some ((fun '(x, y, pressure) => (x - left, y - top, pressure))
                    <$> points)).

Definition utils : Utils :=
  Build_Utils pointerEventToCanvasPoint findIntersectingLayersWithRectangle
              resizeBounds penPointsToPathLayer.

End SpecUtils.

(** ** Concrete boards *)

Definition black : Color.t := Color.mk 0 0 0.

(** The pressure 0.5. *)
Definition midPressure : Q := (1 # 2)%Q.

(** The state of a freshly mounted component on an empty board. *)
Definition initialState : State :=
  mkState StateNone (Camera.mk 0 0) black ∅ []
          (Presence.mk [] None None None) (History.mk false []).

Definition rectangleAt (x y width height : Z) : Layer.t :=
  Layer.mk LayerType.Rectangle x y height width black None.

(** A board of [n] layers, with ids made of one character each. *)
Definition idOf (k : nat) : string := String (Ascii.ascii_of_nat k) EmptyString.

Fixpoint boardOf (n : nat) : gmap string Layer.t :=
  match n with
  | O => ∅
  | S k => <[idOf k := rectangleAt 0 0 100 100]> (boardOf k)
  end.

Definition withLayers (m : gmap string Layer.t) (ids : list string)
    (s : State) : State :=
  mkState (canvasState s) (camera s) (lastUsedColor s) m ids
          (presence s) (history s).

Definition withSelection (ids : list string) (s : State) : State :=
  setMyPresence (Patch.of_selection ids) false s.

Definition withDraft (d : option (list Sample)) (s : State) : State :=
  setMyPresence (Patch.of_pencilDraft d) false s.

Definition fullBoard : State :=
  withLayers (boardOf 100) (idOf <$> seq 0 100) initialState.

(** Two small rectangles, ["a"] near the origin and ["b"] further away. *)
Definition boardAB : State :=
  withLayers {[ "a" := rectangleAt 2 2 3 3; "b" := rectangleAt 50 50 3 3 ]}
             ["a"; "b"] initialState.

(** A drag in progress whose selection also names a layer that is gone. *)
Definition dragging : State :=
  setCanvasState (StateTranslating (Point.mk 0 0))
                 (withSelection ["a"; "ghost"] boardAB).

Definition resizing (selection : list string) : State :=
  setCanvasState (StateResizing (XYWH.mk 0 0 10 10) TopLeft)
                 (withSelection selection boardAB).

(** The pointer pressed on the empty canvas at the origin. *)
Definition pressing : State :=
  setCanvasState (StatePressing (Point.mk 0 0)) boardAB.

(** A selection net that has caught layer ["a"]. *)
Definition netSelected : State :=
  setCanvasState (StateSelectionNet (Point.mk 0 0) (Point.mk 10 10))
                 (withSelection ["a"] boardAB).

(** A pointer event at client position [(x, y)] with the primary button
    held ([buttons = 1]) and pressure 0.5. *)
Definition pointerAt (x y : Z) : PointerEvent.t :=
  PointerEvent.mk x y 1 midPressure.

(** The same with no button held, as a pointer-up reports it. *)
Definition releasedAt (x y : Z) : PointerEvent.t :=
  PointerEvent.mk x y 0 0%Q.

(** The rectangle tool chosen in the toolbar, on an empty board. *)
Definition inserting : State :=
  setCanvasState (StateInserting Rectangle) initialState.

(** The pointer pressed on layer ["a"]: a drag has started. *)
Definition dragStarted : State :=
  onLayerPointerDown (U := SpecUtils.utils) (pointerAt 3 3) "a" boardAB.

Definition pencilState : State := setCanvasState StatePencil initialState.

Definition stroke : list Sample :=
  [(5, 5, midPressure); (15, 5, midPressure); (5, 15, midPressure)].

Definition isPaused (s : State) : bool := History.paused (history s).

(** How many times [id] occurs in a selection. *)
Fixpoint occurrences (id : string) (ids : list string) : Z :=
  match ids with
  | [] => 0
  | j :: ids => (if decide (j = id) then 1 else 0) + occurrences id ids
  end.

(** *** Notions used to describe whole runs *)

(** Two layers that differ at most in position and size. *)
Definition sameShape (l l' : Layer.t) : Prop :=
  Layer.type l' = Layer.type l
  ∧ Layer.fill l' = Layer.fill l
  ∧ Layer.points l' = Layer.points l.

(** The same ids, in the same order, with layers of the same shape. *)
Definition geometryOnly (s s' : State) : Prop :=
  layerIds s' = layerIds s
  ∧ ∀ id : string, option_Forall2 sameShape (layers s !! id) (layers s' !! id).

(** Every stored layer is in the paint order and conversely. *)
Definition storageConsistent (s : State) : Prop :=
  dom (layers s) = list_to_set (layerIds s).

Definition isPointerUp (ev : Event) : bool :=
  match ev with PointerUp _ => true | _ => false end.


(** The ids that come with the pointer-up events of a run: the only events
    during which [nanoid()] can be called. *)
Fixpoint drawnIds (evs : list (string * Event)) : list string :=
  match evs with
  | [] => []
  | (id, ev) :: evs => if isPointerUp ev then id :: drawnIds evs else drawnIds evs
  end.



(** A sequence of pointer moves ([nanoid()] is not called on a move). *)
Definition pointerMoves (es : list PointerEvent.t) : list (string * Event) :=
  (λ e, (EmptyString, PointerMove e)) <$> es.

(** The sample [[x, y, pressure]] that a pointer event contributes to the
    pencil draft. *)
Definition sampleOf {U : Utils} (e : PointerEvent.t) (camera : Camera.t) : Sample :=
  (Point.x (pointerEventToCanvasPoint e camera),
   Point.y (pointerEventToCanvasPoint e camera),
   PointerEvent.pressure e).

(** *** The highlight colours of the other users' selections

    [layerIdsToColorSelection] of the component: [selections] holds one pair
    [[connectionId, selection]] per other user, and [connectionIdToColor]
    is a helper of [@/lib/utils], taken as a parameter.  The map holds the
    properties that the loop writes on the object. *)
Definition layerIdsToColorSelection (connectionIdToColor : Z → string)
    (selections : list (Z * list string)) : gmap string string :=
  foldl (λ colors user,
           foldl (λ colors layerId,
                    <[layerId := connectionIdToColor user.1]> colors)
                 colors user.2)
        ∅ selections.

(** ** Properties *)

(** *** Inserting a shape *)

Section Insertion.

Context {U : Utils}.


(** C2. Once the board holds 100 layers or more, [insertLayer] changes
    nothing: the layers, the order, the selection and the mode stay as they
    are. *)
Theorem insertLayer_at_cap (layerId : string) (layerType : ShapeType)
    (position : Point.t) (s : State) :
  (MAX_LAYERS ≤ size (layers s))%nat →
  insertLayer layerId layerType position s = s.
Proof.
  intros Hfull. unfold insertLayer.
  destruct (decide (MAX_LAYERS ≤ size (layers s))%nat); [done | lia].
Qed.

(** *** Committing a pencil stroke *)

(** C3. Without a draft, with a draft of fewer than two samples, or on a
    full board, [insertPath] only sets the draft to [null]: no layer and no
    id is added.  Otherwise it stores the converted draft under the new id,
    appends the id to the order, sets the draft to [null] and the mode to
    Pencil; the selection and everything else stay as they are. *)
Theorem insertPath_spec (id : string) (s : State) :
  ((from_option length 0%nat (Presence.pencilDraft (presence s)) < 2
    ∨ MAX_LAYERS ≤ size (layers s))%nat →
   insertPath id s =
     mkState (canvasState s) (camera s) (lastUsedColor s) (layers s) (layerIds s)
       (Presence.mk (Presence.selection (presence s))
          (Presence.cursor (presence s)) None
          (Presence.penColor (presence s)))
       (history s))
  ∧ (∀ draft : list Sample,
       Presence.pencilDraft (presence s) = Some draft →
       (2 ≤ length draft)%nat →
       (size (layers s) < MAX_LAYERS)%nat →
       insertPath id s =
         mkState StatePencil (camera s) (lastUsedColor s)
           (<[id := penPointsToPathLayer draft (lastUsedColor s)]> (layers s))
           (layerIds s ++ [id])
           (Presence.mk (Presence.selection (presence s))
              (Presence.cursor (presence s)) None
              (Presence.penColor (presence s)))
           (history s)).
Proof.
  unfold insertPath. split.
  - intros Hreject.
    destruct (Presence.pencilDraft (presence s)) as [draft |]; [| reflexivity].
    cbn in Hreject. by rewrite decide_True.
  - intros draft -> Hlen Hcap.
    rewrite decide_False by lia. reflexivity.
Qed.

End Insertion.


Lemma size_fullBoard : size (layers fullBoard) = 100%nat.
Proof. vm_compute. reflexivity. Qed.

Lemma insertLayer_at_cap_witness :
  insertLayer "new" Ellipse (Point.mk 7 9) fullBoard = fullBoard.
Proof.
  apply insertLayer_at_cap. rewrite size_fullBoard. unfold MAX_LAYERS. lia.
Defined.

Lemma insertPath_spec_witness :
  insertPath (U := SpecUtils.utils) "p"
    (withDraft (Some [(5, 5, midPressure)]) pencilState) = pencilState
  ∧ insertPath (U := SpecUtils.utils) "p" (withDraft (Some stroke) pencilState) =
      mkState StatePencil (Camera.mk 0 0) black
        {[ "p" := Layer.mk LayerType.Path 5 5 10 10 black
                    (Some [(0, 0, midPressure); (10, 0, midPressure); (0, 10, midPressure)]) ]}
        ["p"] (Presence.mk [] None None None) (History.mk false []).
Proof.
  split.
  - apply (proj1 (insertPath_spec (U := SpecUtils.utils) "p"
                    (withDraft (Some [(5, 5, midPressure)]) pencilState))).
    left. vm_compute. lia.
  - apply (proj2 (insertPath_spec (U := SpecUtils.utils) "p"
                    (withDraft (Some stroke) pencilState)) stroke).
    + reflexivity.
    + vm_compute. lia.
    + vm_compute. lia.
Defined.

(** *** Dragging and resizing the selection *)

Section Dragging.

Context {U : Utils}.



Lemma translate_0 (l : Layer.t) : Layer.translate 0 0 l = l.
Proof.
  destruct l. unfold Layer.translate, Layer.update_xy. cbn. f_equal; lia.
Qed.

Lemma translate_translate (dx dy dx' dy' : Z) (l : Layer.t) :
  Layer.translate dx' dy' (Layer.translate dx dy l)
  = Layer.translate (dx + dx') (dy + dy') l.
Proof.
  destruct l. unfold Layer.translate, Layer.update_xy. cbn. f_equal; lia.
Qed.

(** The loop writes to [layers] only. *)
Lemma foldl_translateLayer_frame (offset : Point.t) (ids : list string) (s : State) :
  foldl (translateLayer offset) s ids
  = withLayers (layers (foldl (translateLayer offset) s ids)) (layerIds s) s.
Proof.
  revert s. induction ids as [| id ids IH]; intros s; cbn [foldl].
  - by destruct s.
  - etrans; [apply IH |].
    generalize (layers (foldl (translateLayer offset) (translateLayer offset s id) ids)).
    intros m. unfold translateLayer. by destruct (layers s !! id).
Qed.

(** After the loop every layer has moved once per occurrence of its id in
    the selection; an id without a layer still has none. *)
Lemma lookup_foldl_translateLayer (offset : Point.t) (ids : list string)
    (s : State) (id : string) :
  layers (foldl (translateLayer offset) s ids) !! id
  = Layer.translate (occurrences id ids * Point.x offset)
                    (occurrences id ids * Point.y offset)
      <$> layers s !! id.
Proof.
  revert s. induction ids as [| j ids IH]; intros s; cbn [foldl occurrences].
  - destruct (layers s !! id) as [l |]; cbn; [| done].
    by rewrite translate_0.
  - rewrite IH. unfold translateLayer.
    destruct (decide (j = id)) as [-> | Hne].
    + destruct (layers s !! id) as [l |] eqn:Hl; cbn.
      * rewrite lookup_insert_eq. cbn. f_equal.
        change (Layer.update_xy (Layer.x l + Point.x offset)
                  (Layer.y l + Point.y offset) l)
          with (Layer.translate (Point.x offset) (Point.y offset) l).
        rewrite translate_translate. f_equal; lia.
      * by rewrite Hl.
    + assert (layers (match layers s !! j with
                      | Some layer =>
                          liveLayers_set j
                            (Layer.update_xy (Layer.x layer + Point.x offset)
                               (Layer.y layer + Point.y offset) layer) s
                      | None => s
                      end) !! id = layers s !! id) as ->.
      { destruct (layers s !! j); cbn; [by rewrite lookup_insert_ne | done]. }
      by rewrite Z.add_0_l.
Qed.

Lemma translateSelectedLayers_translating (point current : Point.t) (s : State) :
  canvasState s = StateTranslating current →
  translateSelectedLayers point s
  = mkState (StateTranslating point) (camera s) (lastUsedColor s)
      (layers (foldl (translateLayer
                        (Point.mk (Point.x point - Point.x current)
                                  (Point.y point - Point.y current)))
                 s (Presence.selection (presence s))))
      (layerIds s) (presence s) (history s).
Proof.
  intros Hmode. unfold translateSelectedLayers. rewrite Hmode.
  by rewrite foldl_translateLayer_frame.
Qed.

Lemma translateSelectedLayers_idle (point : Point.t) (s : State) :
  mode (canvasState s) ≠ CanvasMode.Translating →
  translateSelectedLayers point s = s.
Proof.
  intros Hmode. unfold translateSelectedLayers. by destruct (canvasState s).
Qed.

Lemma lookup_translateSelectedLayers (point current : Point.t) (s : State)
    (id : string) :
  canvasState s = StateTranslating current →
  layers (translateSelectedLayers point s) !! id
  = Layer.translate
      (occurrences id (Presence.selection (presence s))
       * (Point.x point - Point.x current))
      (occurrences id (Presence.selection (presence s))
       * (Point.y point - Point.y current))
      <$> layers s !! id.
Proof.
  intros Hmode.
  rewrite (translateSelectedLayers_translating _ _ _ Hmode). cbn [layers].
  by rewrite lookup_foldl_translateLayer.
Qed.


(** C5. [resizeSelectedLayer] changes nothing unless the mode is Resizing.
    In that mode it computes the bounds with [resizeBounds] from the initial
    bounds and the corner kept in the mode and from the point, and writes
    their [x], [y], [width] and [height] onto the selected layer (the first
    id of the selection); no other layer and nothing else changes, the mode
    included. *)
Theorem resizeSelectedLayer_spec (point : Point.t) (s : State) :
  (mode (canvasState s) ≠ CanvasMode.Resizing →
   resizeSelectedLayer point s = s)
  ∧ (∀ (initialBounds : XYWH.t) (corner : Side) (id : string)
       (rest : list string) (layer : Layer.t),
       canvasState s = StateResizing initialBounds corner →
       Presence.selection (presence s) = id :: rest →
       layers s !! id = Some layer →
       let bounds := resizeBounds initialBounds corner point in
       let s' := resizeSelectedLayer point s in
       s' = mkState (StateResizing initialBounds corner) (camera s)
              (lastUsedColor s)
              (<[id := Layer.mk (Layer.type layer)
                         (XYWH.x bounds) (XYWH.y bounds)
                         (XYWH.height bounds) (XYWH.width bounds)
                         (Layer.fill layer) (Layer.points layer)]> (layers s))
              (layerIds s) (presence s) (history s)
       ∧ (∀ other : string, other ≠ id → layers s' !! other = layers s !! other)).
Proof.
  split.
  - intros Hmode. unfold resizeSelectedLayer. by destruct (canvasState s).
  - intros initialBounds corner id rest layer Hmode Hsel Hlayer bounds s'.
    assert (s' = liveLayers_set id (Layer.update_bounds bounds layer) s) as ->.
    { subst s'. unfold resizeSelectedLayer.
      by rewrite Hmode, Hsel; cbn; rewrite Hlayer. }
    split.
    + unfold liveLayers_set. by rewrite Hmode.
    + intros other Hne. cbn. by rewrite lookup_insert_ne.
Qed.

Lemma occurrences_filter_ne (id stale : string) (ids : list string) :
  id ≠ stale →
  occurrences id (filter (λ j, j ≠ stale) ids) = occurrences id ids.
Proof.
  intros Hne. induction ids as [| j ids IH]; [done |].
  destruct (decide (j = stale)) as [-> | Hj].
  - rewrite filter_cons_False by (intros H; by apply H).
    cbn. rewrite decide_False by done. by rewrite IH.
  - rewrite filter_cons_True by done. cbn. by rewrite IH.
Qed.

(** C10. An id of the selection that has no layer in the storage is skipped.
    [translateSelectedLayers] creates no layer for it and leaves the layers
    exactly as it would without that id in the selection;
    [resizeSelectedLayer] creates no layer for it either, and changes
    nothing at all when it is the id it looks up. *)
Theorem stale_selection_skipped (point : Point.t) (s : State) (stale : string) :
  stale ∈ Presence.selection (presence s) →
  layers s !! stale = None →
  layers (translateSelectedLayers point s) !! stale = None
  ∧ layers (translateSelectedLayers point s)
    = layers (translateSelectedLayers point
                (withSelection
                   (filter (λ id, id ≠ stale) (Presence.selection (presence s)))
                   s))
  ∧ layers (resizeSelectedLayer point s) !! stale = None
  ∧ (Presence.selection (presence s) !! 0%nat = Some stale →
     resizeSelectedLayer point s = s).
Proof.
  intros _ Hstale.
  split; [| split; [| split]].
  - destruct (canvasState s) as [| | | current | | |] eqn:Hmode;
      try (rewrite translateSelectedLayers_idle; [done | by rewrite Hmode]).
    by rewrite (lookup_translateSelectedLayers _ _ _ _ Hmode), Hstale.
  - destruct (canvasState s) as [| | | current | | |] eqn:Hmode;
      try (unfold translateSelectedLayers; cbn; by rewrite Hmode).
    rewrite (translateSelectedLayers_translating _ _ _ Hmode).
    rewrite (translateSelectedLayers_translating point current (withSelection _ s))
      by done.
    cbn [layers]. apply map_eq. intros id.
    rewrite !lookup_foldl_translateLayer. cbn.
    destruct (decide (id = stale)) as [-> | Hne].
    + by rewrite Hstale.
    + by rewrite occurrences_filter_ne.
  - unfold resizeSelectedLayer.
    destruct (canvasState s); try done.
    destruct (Presence.selection (presence s) !! 0%nat) as [id |]; [| done].
    destruct (layers s !! id) as [layer |] eqn:Hlayer; [| done].
    cbn. rewrite lookup_insert_ne; [done | congruence].
  - intros Hfirst. unfold resizeSelectedLayer.
    destruct (canvasState s); try done.
    by rewrite Hfirst, Hstale.
Qed.

End Dragging.


Lemma resizeSelectedLayer_spec_witness :
  resizeSelectedLayer (U := SpecUtils.utils) (Point.mk 20 20) boardAB = boardAB
  ∧ layers (resizeSelectedLayer (U := SpecUtils.utils) (Point.mk 20 20)
              (resizing ["a"])) !! "a"
    = Some (rectangleAt 10 10 10 10)
  ∧ layers (resizeSelectedLayer (U := SpecUtils.utils) (Point.mk 20 20)
              (resizing ["a"])) !! "b"
    = Some (rectangleAt 50 50 3 3).
Proof.
  destruct (resizeSelectedLayer_spec (U := SpecUtils.utils) (Point.mk 20 20) boardAB)
    as [Hidle _].
  destruct (resizeSelectedLayer_spec (U := SpecUtils.utils) (Point.mk 20 20)
              (resizing ["a"])) as [_ Hresize].
  destruct (Hresize (XYWH.mk 0 0 10 10) TopLeft "a" [] (rectangleAt 2 2 3 3)
              eq_refl eq_refl eq_refl) as [Hframe Hother].
  split; [apply Hidle; discriminate |].
  split.
  - rewrite Hframe. reflexivity.
  - rewrite (Hother "b") by discriminate. reflexivity.
Defined.

Lemma stale_selection_skipped_witness :
  layers (translateSelectedLayers (Point.mk 3 4) dragging) !! "ghost" = None
  ∧ resizeSelectedLayer (U := SpecUtils.utils) (Point.mk 20 20)
      (resizing ["ghost"; "a"]) = resizing ["ghost"; "a"].
Proof.
  split.
  - apply (stale_selection_skipped (U := SpecUtils.utils) (Point.mk 3 4)
             dragging "ghost"); [compute_done | reflexivity].
  - apply (stale_selection_skipped (U := SpecUtils.utils) (Point.mk 20 20)
             (resizing ["ghost"; "a"]) "ghost");
      [compute_done | reflexivity | reflexivity].
Defined.

(** *** Pointer moves: the selection net and the pencil *)

Section PointerMoves.

Context {U : Utils}.

(** C6. In mode Pressing a pointer move enters SelectionNet, with the
    recorded origin and the current point, exactly when the Manhattan
    distance between the two exceeds 5, and stays in Pressing otherwise.  In
    mode SelectionNet every pointer move records the origin and the current
    point and writes the ids that [findIntersectingLayersWithRectangle]
    returns for them into the selection of the presence. *)
Theorem onPointerMove_selection_net (e : PointerEvent.t) (s : State) :
  let current := pointerEventToCanvasPoint e (camera s) in
  let s' := onPointerMove e s in
  (∀ origin : Point.t,
     canvasState s = StatePressing origin →
     let distance :=
       Z.abs (Point.x current - Point.x origin)
       + Z.abs (Point.y current - Point.y origin) in
     (mode (canvasState s') = CanvasMode.SelectionNet ↔ distance > 5)
     ∧ (distance > 5 → canvasState s' = StateSelectionNet origin current)
     ∧ (distance ≤ 5 → canvasState s' = StatePressing origin))
  ∧ (∀ origin previous : Point.t,
       canvasState s = StateSelectionNet origin previous →
       canvasState s' = StateSelectionNet origin current
       ∧ Presence.selection (presence s')
         = findIntersectingLayersWithRectangle (layerIds s) (layers s)
                                               origin current).
Proof.
  intros current s'. split.
  - intros origin Hmode distance. subst s'.
    unfold onPointerMove. rewrite Hmode. fold current.
    unfold startMultiSelection. fold distance.
    destruct (decide (distance > 5)) as [Hfar | Hnear]; cbn; rewrite ?Hmode; cbn.
    + repeat split; first [done | lia].
    + repeat split; first [done | lia | discriminate].
  - intros origin previous Hmode. subst s'.
    unfold onPointerMove. rewrite Hmode. by fold current.
Qed.

Lemma isSamePoint_true (draft : list Sample) (point : Point.t) :
  isSamePoint draft point = true
  ↔ ∃ pressure : Q, draft = [(Point.x point, Point.y point, pressure)].
Proof.
  unfold isSamePoint. split.
  - intros Hsame.
    apply andb_prop in Hsame as [Hsame Hy]. apply andb_prop in Hsame as [Hlen Hx].
    apply bool_decide_eq_true in Hlen, Hx, Hy.
    destruct draft as [| [[x0 y0] pressure] [| ? ?]]; try discriminate.
    simplify_eq/=. by exists pressure.
  - intros [pressure ->]. cbn. by rewrite !bool_decide_eq_true_2.
Qed.


(** The test on [buttons] compares the whole bit mask: with a second button
    held as well ([buttons = 3]) nothing is appended. *)
Remark continueDrawing_two_buttons (point : Point.t) (e : PointerEvent.t)
    (s : State) :
  PointerEvent.buttons e = 3 → continueDrawing point e s = s.
Proof.
  intros Hbuttons. unfold continueDrawing.
  rewrite decide_True; [done |]. right. lia.
Qed.

End PointerMoves.

Lemma onPointerMove_selection_net_witness :
  canvasState (onPointerMove (U := SpecUtils.utils) (pointerAt 10 10) pressing)
  = StateSelectionNet (Point.mk 0 0) (Point.mk 10 10)
  ∧ canvasState (onPointerMove (U := SpecUtils.utils) (pointerAt 2 3) pressing)
    = StatePressing (Point.mk 0 0)
  ∧ Presence.selection
      (presence (onPointerMove (U := SpecUtils.utils) (pointerAt 10 10)
                   (setCanvasState
                      (StateSelectionNet (Point.mk 0 0) (Point.mk 6 0)) boardAB)))
    = ["a"].
Proof.
  split; [| split].
  - apply (proj1 (onPointerMove_selection_net (U := SpecUtils.utils)
                    (pointerAt 10 10) pressing) (Point.mk 0 0) eq_refl).
    vm_compute. reflexivity.
  - apply (proj1 (onPointerMove_selection_net (U := SpecUtils.utils)
                    (pointerAt 2 3) pressing) (Point.mk 0 0) eq_refl).
    vm_compute. discriminate.
  - apply (proj2 (onPointerMove_selection_net (U := SpecUtils.utils)
                    (pointerAt 10 10)
                    (setCanvasState
                       (StateSelectionNet (Point.mk 0 0) (Point.mk 6 0)) boardAB))
             (Point.mk 0 0) (Point.mk 6 0) eq_refl).
Defined.


(** *** Pointer up: the selection and the undo history *)

Section PointerUp.

Context {U : Utils}.

(** A pointer-up in mode Inserting runs [insertLayer] at the pointer and
    resumes the history; on a full board the mode therefore stays
    Inserting. *)
Lemma onPointerUp_inserting (id : string) (e : PointerEvent.t)
    (layerType : ShapeType) (s : State) :
  canvasState s = StateInserting layerType →
  onPointerUp id e s
  = history_resume
      (if decide (MAX_LAYERS ≤ size (layers s))%nat then s
       else insertLayer id layerType (pointerEventToCanvasPoint e (camera s)) s).
Proof.
  intros Hmode. unfold onPointerUp. rewrite Hmode. unfold insertLayer.
  by destruct (decide (MAX_LAYERS ≤ size (layers s))%nat).
Qed.

(** C8, as the component has it.  A pointer-up in the idle branch (mode None
    or Pressing) applies [unselectLayers]: the selection becomes empty, and
    the write is recorded when the selection was not empty.  No other branch
    applies it: in the modes SelectionNet, Translating and Resizing the
    pointer-up only resets the mode to None and the presence, the selection
    of a selection net included, stays as it is; in mode Inserting it runs
    [insertLayer], after which the selection is the new layer (or, on a full
    board, unchanged); in mode Pencil the selection is unchanged. *)
Theorem onPointerUp_selection (id : string) (e : PointerEvent.t) (s : State) :
  let s' := onPointerUp id e s in
  (mode (canvasState s) = CanvasMode.None
   ∨ mode (canvasState s) = CanvasMode.Pressing →
   Presence.selection (presence s') = []
   ∧ canvasState s' = StateNone
   ∧ History.undoable (history s')
     = History.undoable (history s)
       ++ (if decide (Presence.selection (presence s) = []) then []
           else [Patch.of_selection []]))
  ∧ (mode (canvasState s) = CanvasMode.SelectionNet
     ∨ mode (canvasState s) = CanvasMode.Translating
     ∨ mode (canvasState s) = CanvasMode.Resizing →
     presence s' = presence s
     ∧ canvasState s' = StateNone
     ∧ History.undoable (history s') = History.undoable (history s))
  ∧ (∀ layerType : ShapeType,
       canvasState s = StateInserting layerType →
       Presence.selection (presence s')
       = if decide (MAX_LAYERS ≤ size (layers s))%nat
         then Presence.selection (presence s) else [id])
  ∧ (canvasState s = StatePencil →
     Presence.selection (presence s') = Presence.selection (presence s)).
Proof.
  intros s'. subst s'. unfold onPointerUp.
  split; [| split; [| split]].
  - intros Hmode.
    assert (Presence.selection
              (presence (history_resume (setCanvasState StateNone (unselectLayers s))))
            = []
            ∧ canvasState (history_resume (setCanvasState StateNone (unselectLayers s)))
              = StateNone
            ∧ History.undoable
                (history (history_resume (setCanvasState StateNone (unselectLayers s))))
              = History.undoable (history s)
                ++ (if decide (Presence.selection (presence s) = []) then []
                    else [Patch.of_selection []])) as Hidle.
    { unfold unselectLayers.
      destruct (Presence.selection (presence s)) as [| first rest] eqn:Hsel.
      - rewrite decide_False by (cbn; lia). cbn.
        by rewrite Hsel, app_nil_r.
      - rewrite decide_True by (cbn; lia). done. }
    destruct (canvasState s); destruct Hmode as [? | ?]; try discriminate; exact Hidle.
  - intros Hmode.
    destruct (canvasState s); destruct Hmode as [? | [? | ?]]; try discriminate; done.
  - intros layerType Hmode. rewrite Hmode. unfold insertLayer.
    by destruct (decide (MAX_LAYERS ≤ size (layers s))%nat).
  - intros Hmode. rewrite Hmode. unfold insertPath.
    destruct (Presence.pencilDraft (presence s)) as [draft |]; [| done].
    by destruct (decide (length draft < 2 ∨ MAX_LAYERS ≤ size (layers s))%nat).
Qed.

(** **** The history is paused from a layer pointer-down to the pointer-up *)

Lemma isPaused_setMyPresence (p : Patch.t) (b : bool) (s : State) :
  isPaused (setMyPresence p b s) = isPaused s.
Proof. by destruct b. Qed.

Lemma isPaused_insertLayer (id : string) (t : ShapeType) (p : Point.t) (s : State) :
  isPaused (insertLayer id t p s) = isPaused s.
Proof.
  unfold insertLayer. by destruct (decide (MAX_LAYERS ≤ size (layers s))%nat).
Qed.

Lemma isPaused_insertPath (id : string) (s : State) :
  isPaused (insertPath id s) = isPaused s.
Proof.
  unfold insertPath.
  destruct (Presence.pencilDraft (presence s)) as [draft |]; [| done].
  by destruct (decide (length draft < 2 ∨ MAX_LAYERS ≤ size (layers s))%nat).
Qed.

Lemma isPaused_translateSelectedLayers (p : Point.t) (s : State) :
  isPaused (translateSelectedLayers p s) = isPaused s.
Proof.
  destruct (canvasState s) as [| | | current | | |] eqn:Hmode;
    try (unfold translateSelectedLayers; by rewrite Hmode).
  by rewrite (translateSelectedLayers_translating _ _ _ Hmode).
Qed.

Lemma isPaused_resizeSelectedLayer (p : Point.t) (s : State) :
  isPaused (resizeSelectedLayer p s) = isPaused s.
Proof.
  unfold resizeSelectedLayer.
  destruct (canvasState s); try done.
  destruct (Presence.selection (presence s) !! 0%nat) as [id |]; [| done].
  by destruct (layers s !! id).
Qed.

Lemma isPaused_continueDrawing (p : Point.t) (e : PointerEvent.t) (s : State) :
  isPaused (continueDrawing p e s) = isPaused s.
Proof.
  unfold continueDrawing.
  destruct (decide (mode (canvasState s) ≠ CanvasMode.Pencil
                    ∨ PointerEvent.buttons e ≠ 1)); [done |].
  by destruct (Presence.pencilDraft (presence s)).
Qed.

Lemma isPaused_onPointerMove (e : PointerEvent.t) (s : State) :
  isPaused (onPointerMove e s) = isPaused s.
Proof.
  unfold onPointerMove. rewrite isPaused_setMyPresence.
  destruct (canvasState s); try done.
  - unfold startMultiSelection. by case_decide.
  - apply isPaused_translateSelectedLayers.
  - apply isPaused_resizeSelectedLayer.
  - apply isPaused_continueDrawing.
Qed.

Lemma isPaused_onPointerDown (e : PointerEvent.t) (s : State) :
  isPaused (onPointerDown e s) = isPaused s.
Proof. unfold onPointerDown. by destruct (canvasState s). Qed.

Lemma isPaused_onLayerPointerDown (e : PointerEvent.t) (layerId : string) (s : State) :
  isPaused (onLayerPointerDown e layerId s)
  = if decide (mode (canvasState s) = CanvasMode.Pencil
               ∨ mode (canvasState s) = CanvasMode.Inserting)
    then isPaused s else true.
Proof.
  unfold onLayerPointerDown.
  destruct (canvasState s); cbn;
    try (by destruct (decide (layerId ∈ Presence.selection (presence s)))).
  all: rewrite decide_True; [done | by (left + right)].
Qed.

Lemma isPaused_onPointerUp (id : string) (e : PointerEvent.t) (s : State) :
  isPaused (onPointerUp id e s) = false.
Proof. reflexivity. Qed.

(** An event other than a pointer-up never resumes a paused history. *)
Lemma isPaused_dispatch (id : string) (ev : Event) (s : State) :
  (∀ e : PointerEvent.t, ev ≠ PointerUp e) →
  isPaused s = true →
  isPaused (dispatch id ev s) = true.
Proof.
  intros Hev Hpaused. destruct ev as [e | e | | e | e | e layerId | type]; cbn.
  - done.
  - by rewrite isPaused_onPointerMove.
  - done.
  - by rewrite isPaused_onPointerDown.
  - by destruct (Hev e).
  - assert (isPaused (onLayerPointerDown e layerId s) = true) as Hdown.
    { rewrite isPaused_onLayerPointerDown. by case_decide. }
    destruct (canvasState s); try done; by rewrite isPaused_onPointerDown.
  - done.
Qed.

Lemma isPaused_run (evs : list (string * Event)) (s : State) :
  Forall (λ ev, ∀ e : PointerEvent.t, ev.2 ≠ PointerUp e) evs →
  isPaused s = true →
  isPaused (run evs s) = true.
Proof.
  intros Hevs. revert s.
  induction Hevs as [| [id ev] evs Hev _ IH]; intros s Hpaused; [done |].
  cbn. apply IH. by apply isPaused_dispatch.
Qed.

(** C9, as the component has it.  A pointer-down on a layer in a mode other
    than Pencil and Inserting pauses the history and enters Translating.
    Every pointer-up, whatever the mode, leaves the history resumed.  From
    the pause on, no sequence of events without a pointer-up resumes it:
    the moves of the drag all run while the history is paused, and so does
    any event for which no listener is registered (a lost pointer capture)
    or whose listener does not resume (the pointer leaving the canvas).
    Hence a drag followed by its pointer-up lies between one pause and one
    resume. *)
Theorem history_paused_until_pointer_up (id : string) (s : State) :
  (∀ (e : PointerEvent.t) (layerId : string),
     mode (canvasState s) ≠ CanvasMode.Pencil →
     mode (canvasState s) ≠ CanvasMode.Inserting →
     isPaused (onLayerPointerDown e layerId s) = true
     ∧ canvasState (onLayerPointerDown e layerId s)
       = StateTranslating (pointerEventToCanvasPoint e (camera s)))
  ∧ (∀ e : PointerEvent.t, isPaused (onPointerUp id e s) = false)
  ∧ (∀ evs : list (string * Event),
       Forall (λ ev, ∀ e : PointerEvent.t, ev.2 ≠ PointerUp e) evs →
       isPaused s = true →
       isPaused (run evs s) = true
       ∧ ∀ e : PointerEvent.t,
           isPaused (run (evs ++ [(id, PointerUp e)]) s) = false).
Proof.
  split; [| split].
  - intros e layerId Hpencil Hinserting. split.
    + rewrite isPaused_onLayerPointerDown. rewrite decide_False; [done |].
      by intros [? | ?].
    + unfold onLayerPointerDown. by destruct (canvasState s).
  - intros e. apply isPaused_onPointerUp.
  - intros evs Hevs Hpaused. split; [by apply isPaused_run |].
    intros e. unfold run. rewrite foldl_app. reflexivity.
Qed.

End PointerUp.

(** C8 as stated fails: a pointer-up in mode SelectionNet leaves the
    selection that the net produced, and a pointer-up in mode Inserting
    leaves the new layer selected; [unselectLayers] runs in neither. *)
Lemma selection_net_survives_pointer_up :
  canvasState netSelected = StateSelectionNet (Point.mk 0 0) (Point.mk 10 10)
  ∧ Presence.selection
      (presence (onPointerUp (U := SpecUtils.utils) "n" (releasedAt 10 10)
                   netSelected))
    = ["a"]
  ∧ Presence.selection
      (presence (onPointerUp (U := SpecUtils.utils) "n" (releasedAt 10 10)
                   netSelected))
    ≠ []
  ∧ Presence.selection
      (presence (onPointerUp (U := SpecUtils.utils) "n" (releasedAt 40 40)
                   inserting))
    = ["n"].
Proof. repeat split. discriminate. Qed.

Lemma onPointerUp_selection_witness :
  Presence.selection
    (presence (onPointerUp (U := SpecUtils.utils) "n" (releasedAt 0 0)
                 (withSelection ["a"] pressing)))
  = []
  ∧ presence (onPointerUp (U := SpecUtils.utils) "n" (releasedAt 10 10) netSelected)
    = presence netSelected
  ∧ Presence.selection
      (presence (onPointerUp (U := SpecUtils.utils) "n" (releasedAt 40 40)
                   inserting))
    = ["n"]
  ∧ Presence.selection
      (presence (onPointerUp (U := SpecUtils.utils) "n" (releasedAt 15 5)
                   (withSelection ["a"] (withDraft (Some stroke) pencilState))))
    = ["a"].
Proof.
  split; [| split; [| split]].
  - apply (onPointerUp_selection (U := SpecUtils.utils) "n" (releasedAt 0 0)
             (withSelection ["a"] pressing)).
    right. reflexivity.
  - apply (onPointerUp_selection (U := SpecUtils.utils) "n" (releasedAt 10 10)
             netSelected).
    left. reflexivity.
  - apply (proj1 (proj2 (proj2 (onPointerUp_selection (U := SpecUtils.utils)
                                  "n" (releasedAt 40 40) inserting)))
             Rectangle eq_refl).
  - apply (proj2 (proj2 (proj2 (onPointerUp_selection (U := SpecUtils.utils)
                                  "n" (releasedAt 15 5)
                                  (withSelection ["a"]
                                     (withDraft (Some stroke) pencilState)))))
             eq_refl).
Defined.

(** C9 as stated fails: after a layer pointer-down has paused the history,
    a lost pointer capture reaches no listener and the pointer leaving the
    canvas reaches one that does not resume; the history stays paused. *)
Lemma lost_pointer_capture_leaves_history_paused :
  isPaused boardAB = false
  ∧ isPaused dragStarted = true
  ∧ isPaused (dispatch (U := SpecUtils.utils) "n" (Unhandled "lostpointercapture")
                dragStarted)
    = true
  ∧ isPaused (dispatch (U := SpecUtils.utils) "n" PointerLeave dragStarted) = true.
Proof. repeat split. Qed.

Lemma history_paused_until_pointer_up_witness :
  isPaused (onLayerPointerDown (U := SpecUtils.utils) (pointerAt 3 3) "a" boardAB)
  = true
  ∧ isPaused (run (U := SpecUtils.utils)
                [("n", PointerMove (pointerAt 5 7));
                 ("n", Unhandled "lostpointercapture")]
                dragStarted)
    = true
  ∧ isPaused (run (U := SpecUtils.utils)
                ([("n", PointerMove (pointerAt 5 7));
                  ("n", Unhandled "lostpointercapture")]
                 ++ [("n", PointerUp (releasedAt 5 7))])
                dragStarted)
    = false.
Proof.
  split.
  - apply (proj1 (history_paused_until_pointer_up (U := SpecUtils.utils) "n" boardAB)
             (pointerAt 3 3) "a"); discriminate.
  - destruct (proj2 (proj2 (history_paused_until_pointer_up
                              (U := SpecUtils.utils) "n" dragStarted))
                [("n", PointerMove (pointerAt 5 7));
                 ("n", Unhandled "lostpointercapture")]) as [Hpaused Hresumed].
    + repeat constructor; discriminate.
    + reflexivity.
    + split; [exact Hpaused | exact (Hresumed (releasedAt 5 7))].
Defined.

(** *** Whole gestures on the reference helpers *)

(** Pressing at the origin and moving to [(10, 10)] opens a selection net;
    the next move selects the rectangle under it and not the distant one. *)
Example selection_net_gesture :
  let opened :=
    run (U := SpecUtils.utils)
      [("n", PointerDown (pointerAt 0 0)); ("n", PointerMove (pointerAt 10 10))]
      boardAB in
  canvasState opened = StateSelectionNet (Point.mk 0 0) (Point.mk 10 10)
  ∧ Presence.selection (presence opened) = []
  ∧ Presence.selection
      (presence (dispatch (U := SpecUtils.utils) "n"
                   (PointerMove (pointerAt 10 10)) opened))
    = ["a"].
Proof. repeat split. Qed.

(** Choosing the rectangle tool and releasing the pointer at [(40, 40)] on
    an empty board creates one rectangle there, selects it and returns to
    mode None. *)
Example insertion_gesture :
  run (U := SpecUtils.utils) [("n", PointerUp (releasedAt 40 40))] inserting
  = mkState StateNone (Camera.mk 0 0) black
      {[ "n" := rectangleAt 40 40 100 100 ]} ["n"]
      (Presence.mk ["n"] None None None)
      (History.mk false [Patch.of_selection ["n"]]).
Proof. reflexivity. Qed.

(** Dragging layer ["a"] in two moves: it ends where the pointer went, the
    other layer stays, and the history is resumed. *)
Example drag_gesture :
  let dropped :=
    run (U := SpecUtils.utils)
      [("n", LayerPointerDown (pointerAt 3 3) "a");
       ("n", PointerMove (pointerAt 5 7));
       ("n", PointerMove (pointerAt 10 10));
       ("n", PointerUp (releasedAt 10 10))]
      boardAB in
  layers dropped !! "a" = Some (rectangleAt 9 9 3 3)
  ∧ layers dropped !! "b" = Some (rectangleAt 50 50 3 3)
  ∧ canvasState dropped = StateNone
  ∧ Presence.selection (presence dropped) = ["a"]
  ∧ history dropped = History.mk false [Patch.of_selection ["a"]].
Proof. repeat split. Qed.

(** ** Further properties: the stored layers over whole runs *)

Section Storage.

Context {U : Utils}.

Lemma sameShape_refl (l : Layer.t) : sameShape l l.
Proof. by repeat split. Qed.

Lemma geometryOnly_same (s s' : State) :
  layers s' = layers s → layerIds s' = layerIds s → geometryOnly s s'.
Proof.
  intros Hlayers Hids. split; [done |]. intros id. rewrite Hlayers.
  destruct (layers s !! id); constructor. apply sameShape_refl.
Qed.

Lemma geometryOnly_refl (s : State) : geometryOnly s s.
Proof. by apply geometryOnly_same. Qed.

Lemma geometryOnly_dom (s s' : State) :
  geometryOnly s s' → dom (layers s') = dom (layers s).
Proof.
  intros [_ Hshape]. apply set_eq. intros id. rewrite !elem_of_dom.
  destruct (Hshape id); split; intros [? ?]; by simplify_eq.
Qed.

Lemma geometryOnly_size (s s' : State) :
  geometryOnly s s' → size (layers s') = size (layers s).
Proof.
  intros Hgeo. rewrite <- !(size_dom (D := gset string)).
  by rewrite (geometryOnly_dom _ _ Hgeo).
Qed.

Lemma geometryOnly_translateSelectedLayers (point : Point.t) (s : State) :
  geometryOnly s (translateSelectedLayers point s).
Proof.
  destruct (canvasState s) as [| | | current | | |] eqn:Hmode;
    try (rewrite translateSelectedLayers_idle; [apply geometryOnly_refl |];
         by rewrite Hmode).
  split.
  - by rewrite (translateSelectedLayers_translating _ _ _ Hmode).
  - intros id. rewrite (lookup_translateSelectedLayers _ _ _ _ Hmode).
    destruct (layers s !! id); constructor. by repeat split.
Qed.

Lemma geometryOnly_resizeSelectedLayer (point : Point.t) (s : State) :
  geometryOnly s (resizeSelectedLayer point s).
Proof.
  unfold resizeSelectedLayer.
  destruct (canvasState s); try apply geometryOnly_refl.
  destruct (Presence.selection (presence s) !! 0%nat) as [id |];
    [| apply geometryOnly_refl].
  destruct (layers s !! id) as [layer |] eqn:Hlayer; [| apply geometryOnly_refl].
  split; [done |]. intros j. cbn.
  destruct (decide (id = j)) as [<- | Hne].
  - rewrite lookup_insert_eq, Hlayer. constructor. by repeat split.
  - rewrite lookup_insert_ne by done.
    destruct (layers s !! j); constructor. apply sameShape_refl.
Qed.

Lemma geometryOnly_onPointerMove (e : PointerEvent.t) (s : State) :
  geometryOnly s (onPointerMove e s).
Proof.
  unfold onPointerMove.
  set (current := pointerEventToCanvasPoint e (camera s)).
  destruct (canvasState s) eqn:Hmode; try (by apply geometryOnly_same).
  - unfold startMultiSelection. by case_decide; apply geometryOnly_same.
  - destruct (geometryOnly_translateSelectedLayers current s) as [Hids Hshape].
    by split.
  - destruct (geometryOnly_resizeSelectedLayer current s) as [Hids Hshape].
    by split.
  - apply geometryOnly_same; unfold continueDrawing;
      case_decide; try done; by destruct (Presence.pencilDraft (presence s)).
Qed.

Lemma geometryOnly_onPointerDown (e : PointerEvent.t) (s : State) :
  geometryOnly s (onPointerDown e s).
Proof.
  unfold onPointerDown. by destruct (canvasState s); apply geometryOnly_same.
Qed.

Lemma geometryOnly_onLayerPointerDown (e : PointerEvent.t) (layerId : string)
    (s : State) :
  geometryOnly s (onLayerPointerDown e layerId s).
Proof.
  unfold onLayerPointerDown.
  destruct (canvasState s); apply geometryOnly_same; cbn; try done;
    by destruct (decide (layerId ∈ Presence.selection (presence s))).
Qed.

(** One event either leaves the ids and the shapes as they are, or (a
    pointer-up below the cap) stores one layer under the new id and appends
    that id. *)
Lemma dispatch_storage (id : string) (ev : Event) (s : State) :
  geometryOnly s (dispatch id ev s)
  ∨ (isPointerUp ev = true
     ∧ (size (layers s) < MAX_LAYERS)%nat
     ∧ layerIds (dispatch id ev s) = layerIds s ++ [id]
     ∧ ∃ layer : Layer.t, layers (dispatch id ev s) = <[id := layer]> (layers s)).
Proof.
  destruct ev as [e | e | | e | e | e layerId | type]; cbn [dispatch].
  - left. by apply geometryOnly_same.
  - left. apply geometryOnly_onPointerMove.
  - left. by apply geometryOnly_same.
  - left. apply geometryOnly_onPointerDown.
  - unfold onPointerUp.
    destruct (canvasState s) as [| | | | layerType | |] eqn:Hmode;
      try (left; apply geometryOnly_same; cbn; try done;
           unfold unselectLayers; by case_decide).
    + unfold insertLayer.
      destruct (decide (MAX_LAYERS ≤ size (layers s))%nat);
        [left; by apply geometryOnly_same |].
      right. repeat split; [lia | by eexists].
    + unfold insertPath.
      destruct (Presence.pencilDraft (presence s)) as [draft |];
        [| left; by apply geometryOnly_same].
      destruct (decide (length draft < 2 ∨ MAX_LAYERS ≤ size (layers s))%nat);
        [left; by apply geometryOnly_same |].
      right. repeat split; [lia | by eexists].
  - left.
    destruct (canvasState s) eqn:Hmode;
      try apply geometryOnly_onLayerPointerDown.
    all: unfold onLayerPointerDown; rewrite Hmode;
      apply geometryOnly_onPointerDown.
  - left. apply geometryOnly_refl.
Qed.

Lemma run_cons (id : string) (ev : Event) (evs : list (string * Event)) (s : State) :
  run ((id, ev) :: evs) s = run evs (dispatch id ev s).
Proof. reflexivity. Qed.

Lemma size_insert_le (id : string) (layer : Layer.t) (m : gmap string Layer.t) :
  (size (<[id := layer]> m) ≤ S (size m))%nat.
Proof. rewrite map_size_insert. destruct (m !! id); cbn; lia. Qed.

(** X1. The cap holds over whole runs: on a board of at most 100 layers no
    sequence of events, whatever ids [nanoid()] returns, leads to more than
    100 layers. *)
Theorem run_keeps_layer_cap (evs : list (string * Event)) (s : State) :
  (size (layers s) ≤ MAX_LAYERS)%nat →
  (size (layers (run evs s)) ≤ MAX_LAYERS)%nat.
Proof.
  revert s. induction evs as [| [id ev] evs IH]; intros s Hcap; [done |].
  rewrite run_cons. apply IH.
  destruct (dispatch_storage id ev s) as [Hgeo | (_ & Hroom & _ & layer & ->)].
  - by rewrite (geometryOnly_size _ _ Hgeo).
  - pose proof (size_insert_le id layer (layers s)). lia.
Qed.

Lemma dispatch_storageConsistent (id : string) (ev : Event) (s : State) :
  storageConsistent s → storageConsistent (dispatch id ev s).
Proof.
  unfold storageConsistent. intros Hs.
  destruct (dispatch_storage id ev s) as [Hgeo | (_ & _ & -> & layer & ->)].
  - rewrite (geometryOnly_dom _ _ Hgeo). by destruct Hgeo as [-> _].
  - rewrite dom_insert_L, list_to_set_app_L, list_to_set_singleton_L, Hs.
    apply (comm_L (∪)).
Qed.

(** X2. The layers and the paint order stay in step: when every stored
    layer has its id in [layerIds] and conversely, this still holds after
    any sequence of events, even if [nanoid()] returns an id twice. *)
Theorem run_keeps_storage_consistent (evs : list (string * Event)) (s : State) :
  storageConsistent s → storageConsistent (run evs s).
Proof.
  revert s. induction evs as [| [id ev] evs IH]; intros s Hs; [done |].
  rewrite run_cons. by apply IH, dispatch_storageConsistent.
Qed.

(** X3. Nothing is ever deleted or reordered: after any sequence of events
    the former paint order is a prefix of the new one and every layer that
    was stored still is. *)
Theorem run_only_appends (evs : list (string * Event)) (s : State) :
  layerIds s `prefix_of` layerIds (run evs s)
  ∧ dom (layers s) ⊆ dom (layers (run evs s)).
Proof.
  revert s. induction evs as [| [id ev] evs IH]; intros s; [done |].
  rewrite run_cons. destruct (IH (dispatch id ev s)) as [Hprefix Hdom].
  destruct (dispatch_storage id ev s) as [Hgeo | (_ & _ & Hids & layer & Hlayers)].
  - rewrite <- (geometryOnly_dom _ _ Hgeo). by destruct Hgeo as [<- _].
  - split.
    + etrans; [| exact Hprefix]. rewrite Hids. by apply prefix_app_r.
    + etrans; [| exact Hdom]. rewrite Hlayers, dom_insert_L.
      apply union_subseteq_r.
Qed.

Lemma dispatch_dom_fresh (id : string) (ev : Event) (s : State) :
  dom (layers (dispatch id ev s))
  ⊆ (if isPointerUp ev then {[id]} else ∅) ∪ dom (layers s).
Proof.
  destruct (dispatch_storage id ev s) as [Hgeo | (-> & _ & _ & layer & ->)].
  - rewrite (geometryOnly_dom _ _ Hgeo). apply union_subseteq_r.
  - by rewrite dom_insert_L.
Qed.

(** X4. With ids that are new and pairwise distinct, no id occurs twice in
    the paint order, and the order is exactly as long as there are layers:
    this is kept by any sequence of events. *)
Theorem run_keeps_order_duplicate_free (evs : list (string * Event)) (s : State) :
  NoDup (layerIds s) →
  storageConsistent s →
  NoDup (drawnIds evs) →
  Forall (λ id, id ∉ dom (layers s)) (drawnIds evs) →
  NoDup (layerIds (run evs s))
  ∧ length (layerIds (run evs s)) = size (layers (run evs s)).
Proof.
  revert s.
  induction evs as [| [id ev] evs IH]; intros s Hnodup Hs Hdistinct Hfresh.
  - split; [done |]. cbn.
    rewrite <- (size_dom (D := gset string)), Hs. by rewrite size_list_to_set.
  - rewrite run_cons.
    pose proof (dispatch_storageConsistent id ev s Hs) as Hs'.
    pose proof (dispatch_dom_fresh id ev s) as Hdom.
    cbn [drawnIds] in Hdistinct, Hfresh.
    destruct (dispatch_storage id ev s) as [Hgeo | (Hup & _ & Hids & _)].
    + apply IH; try done.
      * by destruct Hgeo as [-> _].
      * by destruct (isPointerUp ev); [apply NoDup_cons in Hdistinct as [_ ?] |].
      * rewrite (geometryOnly_dom _ _ Hgeo).
        by destruct (isPointerUp ev); [apply Forall_cons in Hfresh as [_ ?] |].
    + rewrite Hup in Hdistinct, Hfresh, Hdom.
      apply NoDup_cons in Hdistinct as [Hid Hdistinct].
      apply Forall_cons in Hfresh as [Hnew Hfresh].
      apply IH; try done.
      * rewrite Hids. apply NoDup_app. split; [done |]. split; [| apply NoDup_singleton].
        intros j Hj ->%list_elem_of_singleton. apply Hnew.
        unfold storageConsistent in Hs. rewrite Hs. by apply elem_of_list_to_set.
      * apply Forall_forall. intros j Hj Hin.
        apply Hdom in Hin. apply elem_of_union in Hin as [->%elem_of_singleton | Hin].
        -- done.
        -- by apply (proj1 (Forall_forall _ _) Hfresh j).
Qed.

Lemma sameShape_trans (l1 l2 l3 : Layer.t) :
  sameShape l1 l2 → sameShape l2 l3 → sameShape l1 l3.
Proof. intros (? & ? & ?) (? & ? & ?). repeat split; congruence. Qed.

(** X5. No event changes what a layer is: a stored layer whose id is not
    handed out again keeps its type, its fill and its points through any
    sequence of events; only its position and size can change. *)
Theorem run_keeps_shapes (evs : list (string * Event)) (s : State)
    (id : string) (layer : Layer.t) :
  layers s !! id = Some layer →
  id ∉ drawnIds evs →
  ∃ layer' : Layer.t,
    layers (run evs s) !! id = Some layer' ∧ sameShape layer layer'.
Proof.
  revert s layer.
  induction evs as [| [j ev] evs IH]; intros s layer Hlayer Hid.
  - exists layer. split; [done | apply sameShape_refl].
  - rewrite run_cons. cbn [drawnIds] in Hid.
    assert (∃ middle : Layer.t,
              layers (dispatch j ev s) !! id = Some middle
              ∧ sameShape layer middle) as (middle & Hmiddle & Hshape).
    { destruct (dispatch_storage j ev s) as [[_ Hgeo] | (Hup & _ & _ & new & ->)].
      - specialize (Hgeo id). rewrite Hlayer in Hgeo.
        inversion Hgeo; simplify_eq. by eexists.
      - rewrite Hup in Hid. apply not_elem_of_cons in Hid as [Hne _].
        exists layer. rewrite lookup_insert_ne by done.
        split; [done | apply sameShape_refl]. }
    destruct (IH (dispatch j ev s) middle Hmiddle) as (layer' & Hlayer' & Hshape').
    + destruct (isPointerUp ev); [by apply not_elem_of_cons in Hid as [_ ?] | done].
    + exists layer'. split; [done |]. by eapply sameShape_trans.
Qed.

End Storage.

Lemma run_keeps_layer_cap_witness :
  (size (layers (run (U := SpecUtils.utils)
                   [("x", PointerUp (releasedAt 1 1));
                    ("y", PointerUp (releasedAt 2 2))]
                   (setCanvasState (StateInserting Ellipse) fullBoard)))
   ≤ MAX_LAYERS)%nat.
Proof.
  apply (run_keeps_layer_cap (U := SpecUtils.utils)).
  vm_compute. lia.
Defined.

Lemma run_keeps_storage_consistent_witness :
  storageConsistent
    (run (U := SpecUtils.utils)
       [("n", PointerUp (releasedAt 40 40));
        ("n", LayerPointerDown (pointerAt 41 41) "n");
        ("n", PointerMove (pointerAt 50 50))]
       (withLayers (layers boardAB) (layerIds boardAB) inserting)).
Proof.
  apply (run_keeps_storage_consistent (U := SpecUtils.utils)).
  unfold storageConsistent. compute_done.
Defined.

Lemma run_keeps_order_duplicate_free_witness :
  NoDup (layerIds (run (U := SpecUtils.utils)
                     [("n", PointerUp (releasedAt 40 40));
                      ("m", PointerMove (pointerAt 50 50))]
                     (withLayers (layers boardAB) (layerIds boardAB) inserting)))
  ∧ length (layerIds (run (U := SpecUtils.utils)
                        [("n", PointerUp (releasedAt 40 40));
                         ("m", PointerMove (pointerAt 50 50))]
                        (withLayers (layers boardAB) (layerIds boardAB) inserting)))
    = size (layers (run (U := SpecUtils.utils)
                      [("n", PointerUp (releasedAt 40 40));
                       ("m", PointerMove (pointerAt 50 50))]
                      (withLayers (layers boardAB) (layerIds boardAB) inserting))).
Proof.
  apply (run_keeps_order_duplicate_free (U := SpecUtils.utils)).
  - compute_done.
  - unfold storageConsistent. compute_done.
  - compute_done.
  - compute_done.
Defined.

Lemma run_keeps_shapes_witness :
  ∃ layer' : Layer.t,
    layers (run (U := SpecUtils.utils)
              [("n", LayerPointerDown (pointerAt 3 3) "a");
               ("n", PointerMove (pointerAt 9 9));
               ("n", PointerUp (releasedAt 9 9))]
              boardAB) !! "a"
    = Some layer'
    ∧ sameShape (rectangleAt 2 2 3 3) layer'.
Proof.
  apply (run_keeps_shapes (U := SpecUtils.utils)).
  - reflexivity.
  - compute_done.
Defined.

(** ** Further properties: the view, the modes and whole gestures *)

Section Runs.

Context {U : Utils}.









Lemma run_snoc (evs : list (string * Event)) (id : string) (ev : Event) (s : State) :
  run (evs ++ [(id, ev)]) s = dispatch id ev (run evs s).
Proof. unfold run. by rewrite foldl_app. Qed.

Lemma dispatch_pencil (id : string) (ev : Event) (s : State) :
  canvasState s = StatePencil →
  canvasState (dispatch id ev s) = StatePencil
  ∧ Presence.selection (presence (dispatch id ev s))
    = Presence.selection (presence s).
Proof.
  intros Hmode.
  destruct ev as [e | e | | e | e | e layerId | type]; cbn [dispatch].
  - done.
  - unfold onPointerMove, continueDrawing. rewrite Hmode.
    case_decide; [done |].
    by destruct (Presence.pencilDraft (presence s)).
  - done.
  - unfold onPointerDown. by rewrite Hmode.
  - unfold onPointerUp, insertPath. rewrite Hmode.
    destruct (Presence.pencilDraft (presence s)); [| done]. by case_decide.
  - rewrite Hmode. unfold onLayerPointerDown. rewrite Hmode.
    unfold onPointerDown. by rewrite Hmode.
  - done.
Qed.

(** X7. No event leaves the pencil tool or touches the selection while it
    is active: from mode Pencil every sequence of events ends in mode Pencil
    with the selection it started with. *)
Theorem run_stays_in_pencil (evs : list (string * Event)) (s : State) :
  canvasState s = StatePencil →
  canvasState (run evs s) = StatePencil
  ∧ Presence.selection (presence (run evs s)) = Presence.selection (presence s).
Proof.
  revert s. induction evs as [| [id ev] evs IH]; intros s Hmode; [done |].
  rewrite run_cons.
  destruct (dispatch_pencil id ev s Hmode) as [Hmode' Hsel].
  destruct (IH _ Hmode') as [-> ->]. by rewrite Hsel.
Qed.

(** X8. A click on the empty canvas deselects: in any mode but Inserting
    and Pencil, a pointer-down followed by a pointer-up leaves the selection
    empty, the mode None and the history resumed, without touching the
    stored layers. *)
Theorem click_deselects (i j : string) (down up : PointerEvent.t) (s : State) :
  mode (canvasState s) ≠ CanvasMode.Inserting →
  mode (canvasState s) ≠ CanvasMode.Pencil →
  let s' := run [(i, PointerDown down); (j, PointerUp up)] s in
  Presence.selection (presence s') = []
  ∧ canvasState s' = StateNone
  ∧ isPaused s' = false
  ∧ layers s' = layers s
  ∧ layerIds s' = layerIds s.
Proof.
  intros Hinserting Hpencil s'. subst s'. cbn [run foldl dispatch].
  assert (onPointerDown down s
          = setCanvasState
              (StatePressing (pointerEventToCanvasPoint down (camera s))) s)
    as ->.
  { unfold onPointerDown. by destruct (canvasState s). }
  unfold onPointerUp. cbn. unfold unselectLayers. cbn.
  destruct (Presence.selection (presence s)) as [| first rest] eqn:Hsel.
  - by rewrite decide_False by (cbn; lia).
  - by rewrite decide_True by (cbn; lia).
Qed.

Lemma run_moves_cons (e : PointerEvent.t) (es : list PointerEvent.t) (s : State) :
  run (pointerMoves (e :: es)) s = run (pointerMoves es) (onPointerMove e s).
Proof. reflexivity. Qed.

Lemma run_moves_snoc (es : list PointerEvent.t) (e : PointerEvent.t) (s : State) :
  run (pointerMoves (es ++ [e])) s = onPointerMove e (run (pointerMoves es) s).
Proof. unfold pointerMoves. rewrite fmap_app. apply run_snoc. Qed.

(** From mode SelectionNet pointer moves keep the net open at its origin
    and touch neither the camera nor the stored layers. *)
Lemma run_moves_selection_net (es : list PointerEvent.t) (s : State)
    (origin current : Point.t) :
  canvasState s = StateSelectionNet origin current →
  (∃ current' : Point.t,
     canvasState (run (pointerMoves es) s) = StateSelectionNet origin current')
  ∧ camera (run (pointerMoves es) s) = camera s
  ∧ layers (run (pointerMoves es) s) = layers s
  ∧ layerIds (run (pointerMoves es) s) = layerIds s.
Proof.
  revert s current. induction es as [| e es IH]; intros s current Hmode.
  - by eauto.
  - rewrite run_moves_cons.
    destruct (IH (onPointerMove e s) (pointerEventToCanvasPoint e (camera s)))
      as (Hopen & -> & -> & ->).
    + unfold onPointerMove. by rewrite Hmode.
    + split; [done |]. unfold onPointerMove. by rewrite Hmode.
Qed.

(** X9. An open selection net stays open, anchored at its origin, and the
    selection always reflects the last move: after any pointer moves in
    mode SelectionNet the mode holds the origin and the last point, and the
    selection is what [findIntersectingLayersWithRectangle] returns for
    them on the unchanged layers; earlier moves leave no trace. *)
Theorem selection_net_follows_last_move (es : list PointerEvent.t)
    (e : PointerEvent.t) (s : State) (origin current : Point.t) :
  canvasState s = StateSelectionNet origin current →
  let last := pointerEventToCanvasPoint e (camera s) in
  let s' := run (pointerMoves (es ++ [e])) s in
  canvasState s' = StateSelectionNet origin last
  ∧ Presence.selection (presence s')
    = findIntersectingLayersWithRectangle (layerIds s) (layers s) origin last
  ∧ layers s' = layers s.
Proof.
  intros Hmode last s'. subst s' last. rewrite run_moves_snoc.
  destruct (run_moves_selection_net es s origin current Hmode)
    as ((current' & Hopen) & Hcamera & Hlayers & Hids).
  unfold onPointerMove.
  rewrite Hopen, Hcamera. cbn. by rewrite Hlayers, Hids.
Qed.





(** X12. A resize is absolute: the bounds come from the bounds frozen in the
    mode, not from the layer, so of two resizes in a row only the second
    counts (and a repeated resize changes nothing more). *)
Theorem resize_last_point_wins (p q : Point.t) (s : State) :
  resizeSelectedLayer q (resizeSelectedLayer p s) = resizeSelectedLayer q s.
Proof.
  unfold resizeSelectedLayer.
  destruct (canvasState s) as [| | | | | initialBounds corner |] eqn:Hmode;
    rewrite ?Hmode; try done.
  destruct (Presence.selection (presence s) !! 0%nat) as [id |] eqn:Hsel;
    [| by rewrite Hmode, Hsel].
  destruct (layers s !! id) as [layer |] eqn:Hlayer;
    [| by rewrite Hmode, Hsel, Hlayer].
  cbn. rewrite Hmode, Hsel, lookup_insert_eq.
  unfold liveLayers_set. cbn. by rewrite insert_insert_eq.
Qed.

(** What a pointer move in mode Pencil leaves untouched. *)
Lemma onPointerMove_pencil_frame (e : PointerEvent.t) (s : State) :
  canvasState s = StatePencil →
  canvasState (onPointerMove e s) = StatePencil
  ∧ camera (onPointerMove e s) = camera s
  ∧ lastUsedColor (onPointerMove e s) = lastUsedColor s
  ∧ layers (onPointerMove e s) = layers s
  ∧ layerIds (onPointerMove e s) = layerIds s
  ∧ Presence.selection (presence (onPointerMove e s))
    = Presence.selection (presence s).
Proof.
  intros Hmode. unfold onPointerMove, continueDrawing. rewrite Hmode.
  case_decide; [done |]. by destruct (Presence.pencilDraft (presence s)).
Qed.

(** Moves that stay on the point of a one-sample draft leave it alone. *)
Lemma run_moves_on_the_spot (es : list PointerEvent.t) (s : State)
    (point : Point.t) (pressure : Q) :
  canvasState s = StatePencil →
  Presence.pencilDraft (presence s)
  = Some [(Point.x point, Point.y point, pressure)] →
  Forall (λ e, pointerEventToCanvasPoint e (camera s) = point) es →
  let s' := run (pointerMoves es) s in
  canvasState s' = StatePencil
  ∧ Presence.pencilDraft (presence s')
    = Some [(Point.x point, Point.y point, pressure)]
  ∧ layers s' = layers s
  ∧ layerIds s' = layerIds s.
Proof.
  revert s. induction es as [| e es IH]; intros s Hmode Hdraft Hes; [done |].
  apply Forall_cons in Hes as [He Hes]. cbn zeta. rewrite run_moves_cons.
  destruct (onPointerMove_pencil_frame e s Hmode)
    as (Hmode' & Hcamera & _ & Hlayers & Hids & _).
  destruct (IH (onPointerMove e s)) as (-> & -> & -> & ->); try done.
  - unfold onPointerMove, continueDrawing. rewrite Hmode, He, Hdraft.
    case_decide; [done |]. cbn.
    assert (isSamePoint [(Point.x point, Point.y point, pressure)] point = true)
      as -> by (apply isSamePoint_true; by exists pressure).
    done.
  - by rewrite Hcamera.
Qed.

(** X13. A tap with the pencil draws nothing: in mode Pencil a pointer-down,
    any number of pointer moves that stay on that point, and a pointer-up
    leave the stored layers and the paint order as they were, and the draft
    is cleared. *)
Theorem pencil_tap_draws_nothing (i j : string) (down up : PointerEvent.t)
    (es : list PointerEvent.t) (s : State) :
  canvasState s = StatePencil →
  Forall (λ e, pointerEventToCanvasPoint e (camera s)
               = pointerEventToCanvasPoint down (camera s)) es →
  let s' := run (((i, PointerDown down) :: pointerMoves es) ++ [(j, PointerUp up)]) s in
  layers s' = layers s
  ∧ layerIds s' = layerIds s
  ∧ Presence.pencilDraft (presence s') = None
  ∧ canvasState s' = StatePencil.
Proof.
  intros Hmode Hes s'. subst s'. rewrite run_snoc, run_cons. cbn [dispatch].
  assert (onPointerDown down s
          = startDrawing (pointerEventToCanvasPoint down (camera s))
              (PointerEvent.pressure down) s) as ->.
  { unfold onPointerDown. by rewrite Hmode. }
  set (s0 := startDrawing _ _ s).
  destruct (run_moves_on_the_spot es s0
              (pointerEventToCanvasPoint down (camera s))
              (PointerEvent.pressure down))
    as (Hmode' & Hdraft & Hlayers & Hids); try done.
  unfold onPointerUp, insertPath. rewrite Hmode', Hdraft.
  rewrite decide_True by (left; cbn; lia). cbn.
  by rewrite Hlayers, Hids, Hmode'.
Qed.

(** Moves with the primary button held append to a draft of two samples or
    more. *)
Lemma run_moves_append (es : list PointerEvent.t) (s : State) (draft : list Sample) :
  canvasState s = StatePencil →
  Presence.pencilDraft (presence s) = Some draft →
  (2 ≤ length draft)%nat →
  Forall (λ e, PointerEvent.buttons e = 1) es →
  let s' := run (pointerMoves es) s in
  canvasState s' = StatePencil
  ∧ Presence.pencilDraft (presence s')
    = Some (draft ++ ((λ e, sampleOf e (camera s)) <$> es))
  ∧ lastUsedColor s' = lastUsedColor s
  ∧ layers s' = layers s
  ∧ layerIds s' = layerIds s
  ∧ Presence.selection (presence s') = Presence.selection (presence s).
Proof.
  revert s draft.
  induction es as [| e es IH]; intros s draft Hmode Hdraft Hlen Hes.
  - cbn. by rewrite app_nil_r.
  - apply Forall_cons in Hes as [He Hes]. cbn zeta. rewrite run_moves_cons.
    destruct (onPointerMove_pencil_frame e s Hmode)
      as (Hmode' & Hcamera & Hcolor & Hlayers & Hids & Hsel).
    destruct (IH (onPointerMove e s) (draft ++ [sampleOf e (camera s)]))
      as (-> & -> & -> & -> & -> & ->); try done.
    + unfold onPointerMove, continueDrawing. rewrite Hmode, Hdraft.
      rewrite decide_False by (intros [? | ?]; done). cbn.
      assert (isSamePoint draft (pointerEventToCanvasPoint e (camera s)) = false)
        as ->; [| done].
      unfold isSamePoint. rewrite bool_decide_eq_false_2; [done | lia].
    + rewrite length_app. cbn. lia.
    + rewrite Hcamera, Hcolor, Hlayers, Hids, Hsel.
      by rewrite <- app_assoc.
Qed.

(** X14. A stroke is committed sample by sample: in mode Pencil, below the
    cap, a pointer-down, a first move with the primary button to another
    point, any further moves with the primary button, and a pointer-up
    store exactly one new layer, the conversion of the sample of the
    pointer-down followed by the samples of all the moves, in the last used
    colour; the id is appended, the draft cleared, the selection kept. *)
Theorem pencil_stroke_commits_samples (i id : string)
    (down first up : PointerEvent.t) (es : list PointerEvent.t) (s : State) :
  canvasState s = StatePencil →
  (size (layers s) < MAX_LAYERS)%nat →
  pointerEventToCanvasPoint first (camera s)
  ≠ pointerEventToCanvasPoint down (camera s) →
  Forall (λ e, PointerEvent.buttons e = 1) (first :: es) →
  let s' :=
    run (((i, PointerDown down) :: pointerMoves (first :: es))
         ++ [(id, PointerUp up)]) s in
  layers s'
  = <[id := penPointsToPathLayer
              (sampleOf down (camera s)
               :: sampleOf first (camera s)
               :: ((λ e, sampleOf e (camera s)) <$> es))
              (lastUsedColor s)]> (layers s)
  ∧ layerIds s' = layerIds s ++ [id]
  ∧ Presence.pencilDraft (presence s') = None
  ∧ Presence.selection (presence s') = Presence.selection (presence s)
  ∧ canvasState s' = StatePencil.
Proof.
  intros Hmode Hroom Hmoved Hes s'. subst s'.
  apply Forall_cons in Hes as [Hfirst Hes].
  rewrite run_snoc, run_cons, run_moves_cons. cbn [dispatch].
  assert (onPointerDown down s
          = startDrawing (pointerEventToCanvasPoint down (camera s))
              (PointerEvent.pressure down) s) as ->.
  { unfold onPointerDown. by rewrite Hmode. }
  set (s0 := startDrawing _ _ s).
  assert (canvasState s0 = StatePencil) as Hmode0 by done.
  destruct (onPointerMove_pencil_frame first s0 Hmode0)
    as (Hmode1 & Hcamera1 & Hcolor1 & Hlayers1 & Hids1 & Hsel1).
  assert (Presence.pencilDraft (presence (onPointerMove first s0))
          = Some [sampleOf down (camera s); sampleOf first (camera s)]) as Hdraft1.
  { unfold onPointerMove, continueDrawing. rewrite Hmode0.
    rewrite decide_False by (intros [? | ?]; done). cbn.
    destruct (isSamePoint _ _) eqn:Hsame; [| done].
    apply isSamePoint_true in Hsame as [pressure Hsame].
    destruct Hmoved.
    destruct (pointerEventToCanvasPoint first (camera s)),
             (pointerEventToCanvasPoint down (camera s)).
    cbn in Hsame. by simplify_eq. }
  destruct (run_moves_append es (onPointerMove first s0) _ Hmode1 Hdraft1)
    as (Hmode2 & Hdraft2 & Hcolor2 & Hlayers2 & Hids2 & Hsel2);
    [cbn; lia | done |].
  rewrite Hcamera1 in Hdraft2. rewrite Hcolor1 in Hcolor2.
  rewrite Hlayers1 in Hlayers2. rewrite Hids1 in Hids2. rewrite Hsel1 in Hsel2.
  unfold onPointerUp, insertPath. rewrite Hmode2, Hdraft2.
  rewrite decide_False.
  - cbn. by rewrite Hcolor2, Hlayers2, Hids2, Hsel2.
  - rewrite length_app, Hlayers2. cbn. intros [? | ?]; lia.
Qed.

(** X15. Deselecting is idempotent: a second [unselectLayers] changes
    nothing, so an empty selection is never recorded as an undoable step
    twice in a row. *)
Theorem unselectLayers_idempotent (s : State) :
  unselectLayers (unselectLayers s) = unselectLayers s.
Proof.
  unfold unselectLayers.
  destruct (decide (0 < length (Presence.selection (presence s)))%nat)
    as [Hsome | Hnone].
  - by rewrite decide_False by (cbn; lia).
  - by rewrite decide_False.
Qed.

End Runs.

Lemma run_stays_in_pencil_witness :
  canvasState (run (U := SpecUtils.utils)
                 [("n", LayerPointerDown (pointerAt 3 3) "a");
                  ("n", PointerMove (pointerAt 9 9));
                  ("n", PointerUp (releasedAt 9 9));
                  ("n", Wheel (WheelEvent.mk 0 30))]
                 (setCanvasState StatePencil (withSelection ["b"] boardAB)))
  = StatePencil
  ∧ Presence.selection
      (presence (run (U := SpecUtils.utils)
                   [("n", LayerPointerDown (pointerAt 3 3) "a");
                    ("n", PointerMove (pointerAt 9 9));
                    ("n", PointerUp (releasedAt 9 9));
                    ("n", Wheel (WheelEvent.mk 0 30))]
                   (setCanvasState StatePencil (withSelection ["b"] boardAB))))
    = ["b"].
Proof.
  apply (run_stays_in_pencil (U := SpecUtils.utils)). reflexivity.
Defined.

Lemma click_deselects_witness :
  Presence.selection
    (presence (run (U := SpecUtils.utils)
                 [("n", PointerDown (pointerAt 30 30));
                  ("n", PointerUp (releasedAt 30 30))]
                 netSelected))
  = []
  ∧ canvasState (run (U := SpecUtils.utils)
                   [("n", PointerDown (pointerAt 30 30));
                    ("n", PointerUp (releasedAt 30 30))]
                   netSelected)
    = StateNone.
Proof.
  destruct (click_deselects (U := SpecUtils.utils) "n" "n"
              (pointerAt 30 30) (releasedAt 30 30) netSelected)
    as (Hsel & Hmode & _); [discriminate | discriminate |].
  split; [exact Hsel | exact Hmode].
Defined.

Lemma selection_net_follows_last_move_witness :
  Presence.selection
    (presence (run (U := SpecUtils.utils)
                 (pointerMoves ([pointerAt 60 60; pointerAt 1 1] ++ [pointerAt 10 10]))
                 netSelected))
  = ["a"]
  ∧ Presence.selection
      (presence (run (U := SpecUtils.utils)
                   (pointerMoves ([pointerAt 10 10] ++ [pointerAt 60 60]))
                   netSelected))
    = ["a"; "b"].
Proof.
  split.
  - apply (selection_net_follows_last_move (U := SpecUtils.utils)
             [pointerAt 60 60; pointerAt 1 1] (pointerAt 10 10) netSelected
             (Point.mk 0 0) (Point.mk 10 10) eq_refl).
  - apply (selection_net_follows_last_move (U := SpecUtils.utils)
             [pointerAt 10 10] (pointerAt 60 60) netSelected
             (Point.mk 0 0) (Point.mk 10 10) eq_refl).
Defined.



Lemma pencil_tap_draws_nothing_witness :
  layers (run (U := SpecUtils.utils)
            ((("n", PointerDown (pointerAt 5 5))
              :: pointerMoves [pointerAt 5 5; pointerAt 5 5])
             ++ [("n", PointerUp (releasedAt 5 5))])
            pencilState)
  = ∅.
Proof.
  apply (pencil_tap_draws_nothing (U := SpecUtils.utils) "n" "n"
           (pointerAt 5 5) (releasedAt 5 5) [pointerAt 5 5; pointerAt 5 5]
           pencilState eq_refl).
  repeat constructor.
Defined.

Lemma pencil_stroke_commits_samples_witness :
  layers (run (U := SpecUtils.utils)
            ((("n", PointerDown (pointerAt 5 5))
              :: pointerMoves (pointerAt 15 5 :: [pointerAt 5 15]))
             ++ [("p", PointerUp (releasedAt 5 15))])
            pencilState)
  = {[ "p" := Layer.mk LayerType.Path 5 5 10 10 black
                (Some [(0, 0, midPressure); (10, 0, midPressure);
                       (0, 10, midPressure)]) ]}.
Proof.
  apply (pencil_stroke_commits_samples (U := SpecUtils.utils) "n" "p"
           (pointerAt 5 5) (pointerAt 15 5) (releasedAt 5 15) [pointerAt 5 15]
           pencilState eq_refl).
  - vm_compute. lia.
  - discriminate.
  - repeat constructor.
Defined.

(** ** Further properties: the highlight colours *)

Section Highlight.

Variable connectionIdToColor : Z → string.

Lemma lookup_foldl_color (color : string) (selection : list string)
    (colors : gmap string string) (id : string) :
  foldl (λ colors layerId, <[layerId := color]> colors) colors selection !! id
  = if decide (id ∈ selection) then Some color else colors !! id.
Proof.
  revert colors. induction selection as [| layerId selection IH]; intros colors.
  - cbn. by rewrite decide_False by apply not_elem_of_nil.
  - cbn [foldl]. rewrite IH.
    destruct (decide (id ∈ selection)) as [Hin | Hnot].
    + by rewrite decide_True by (by right).
    + destruct (decide (id = layerId)) as [-> | Hne].
      * rewrite lookup_insert_eq. by rewrite decide_True by left.
      * rewrite lookup_insert_ne by done.
        by rewrite decide_False by (intros [? | ?]%elem_of_cons; done).
Qed.

Lemma layerIdsToColorSelection_snoc (selections : list (Z * list string))
    (user : Z * list string) (id : string) :
  layerIdsToColorSelection connectionIdToColor (selections ++ [user]) !! id
  = if decide (id ∈ user.2) then Some (connectionIdToColor user.1)
    else layerIdsToColorSelection connectionIdToColor selections !! id.
Proof.
  unfold layerIdsToColorSelection. rewrite foldl_app. cbn [foldl].
  apply lookup_foldl_color.
Qed.

(** X16. The highlight of a layer is the colour of the last user, in the
    order of [selections], who has selected it, and a layer has a highlight
    exactly when some other user has selected it. *)
Theorem layerIdsToColorSelection_last_wins (selections : list (Z * list string))
    (id : string) :
  (layerIdsToColorSelection connectionIdToColor selections !! id = None
   ↔ Forall (λ user, id ∉ user.2) selections)
  ∧ (∀ (before after : list (Z * list string)) (connectionId : Z)
       (selection : list string),
       selections = before ++ (connectionId, selection) :: after →
       id ∈ selection →
       Forall (λ user, id ∉ user.2) after →
       layerIdsToColorSelection connectionIdToColor selections !! id
       = Some (connectionIdToColor connectionId)).
Proof.
  split.
  - induction selections as [| user selections IH] using rev_ind.
    + split; [by constructor | done].
    + rewrite layerIdsToColorSelection_snoc, Forall_app, Forall_singleton.
      destruct (decide (id ∈ user.2)) as [Hin | Hnot].
      * split; [done | by intros [_ ?]].
      * rewrite IH. by split; [| intros [? _]].
  - intros before after connectionId selection -> Hin.
    induction after as [| user after IH] using rev_ind; intros Hafter.
    + rewrite layerIdsToColorSelection_snoc. by rewrite decide_True.
    + apply Forall_app in Hafter as [Hafter Huser].
      apply Forall_cons in Huser as [Huser _].
      rewrite app_comm_cons, app_assoc, layerIdsToColorSelection_snoc.
      rewrite decide_False by exact Huser. by apply IH.
Qed.

End Highlight.

Lemma layerIdsToColorSelection_last_wins_witness :
  layerIdsToColorSelection (λ n, if n =? 1 then "red" else "blue")
    ([(1, ["a"; "b"])] ++ (2, ["b"]) :: [(1, ["c"])]) !! "b"
  = Some "blue"
  ∧ layerIdsToColorSelection (λ n, if n =? 1 then "red" else "blue")
      [(1, ["a"; "b"]); (2, ["b"]); (1, ["c"])] !! "z"
    = None.
Proof.
  split.
  - apply (proj2 (layerIdsToColorSelection_last_wins
                    (λ n, if n =? 1 then "red" else "blue")
                    ([(1, ["a"; "b"])] ++ (2, ["b"]) :: [(1, ["c"])]) "b")
             [(1, ["a"; "b"])] [(1, ["c"])] 2 ["b"] eq_refl);
      compute_done.
  - apply (proj1 (layerIdsToColorSelection_last_wins
                    (λ n, if n =? 1 then "red" else "blue")
                    [(1, ["a"; "b"]); (2, ["b"]); (1, ["c"])] "z")).
    compute_done.
Defined.

(** ** Further properties: the insertion tool *)

Section InsertionTool.

Context {U : Utils}.

(** In mode Inserting every event but a pointer-up changes at most the
    cursor and the camera. *)
Lemma dispatch_inserting (id : string) (ev : Event) (s : State)
    (layerType : ShapeType) :
  canvasState s = StateInserting layerType →
  isPointerUp ev = false →
  canvasState (dispatch id ev s) = StateInserting layerType
  ∧ lastUsedColor (dispatch id ev s) = lastUsedColor s
  ∧ layers (dispatch id ev s) = layers s
  ∧ layerIds (dispatch id ev s) = layerIds s
  ∧ Presence.selection (presence (dispatch id ev s))
    = Presence.selection (presence s)
  ∧ history (dispatch id ev s) = history s.
Proof.
  intros Hmode Hup.
  destruct ev as [e | e | | e | e | e layerId | type];
    try discriminate; cbn [dispatch].
  - done.
  - unfold onPointerMove. by rewrite Hmode.
  - done.
  - unfold onPointerDown. by rewrite Hmode.
  - rewrite Hmode. unfold onLayerPointerDown. rewrite Hmode.
    unfold onPointerDown. by rewrite Hmode.
  - done.
Qed.



Lemma dispatch_inserting_full (id : string) (ev : Event) (s : State)
    (layerType : ShapeType) :
  canvasState s = StateInserting layerType →
  (MAX_LAYERS ≤ size (layers s))%nat →
  canvasState (dispatch id ev s) = StateInserting layerType
  ∧ layers (dispatch id ev s) = layers s
  ∧ layerIds (dispatch id ev s) = layerIds s
  ∧ Presence.selection (presence (dispatch id ev s))
    = Presence.selection (presence s)
  ∧ History.undoable (history (dispatch id ev s)) = History.undoable (history s).
Proof.
  intros Hmode Hfull.
  destruct (decide (isPointerUp ev = true)) as [Hup | Hother].
  - destruct ev; try discriminate. cbn [dispatch].
    unfold onPointerUp. rewrite Hmode. unfold insertLayer.
    by rewrite decide_True.
  - apply not_true_is_false in Hother.
    destruct (dispatch_inserting id ev s layerType Hmode Hother)
      as (-> & _ & -> & -> & -> & ->).
    done.
Qed.

(** X18. On a full board the insertion tool stays armed: in mode
    Inserting with 100 layers or more, no sequence of events changes the
    mode, the stored layers, the paint order or the selection, and none
    records an undoable step. *)
Theorem full_board_keeps_inserting (evs : list (string * Event)) (s : State)
    (layerType : ShapeType) :
  canvasState s = StateInserting layerType →
  (MAX_LAYERS ≤ size (layers s))%nat →
  canvasState (run evs s) = StateInserting layerType
  ∧ layers (run evs s) = layers s
  ∧ layerIds (run evs s) = layerIds s
  ∧ Presence.selection (presence (run evs s)) = Presence.selection (presence s)
  ∧ History.undoable (history (run evs s)) = History.undoable (history s).
Proof.
  revert s. induction evs as [| [id ev] evs IH]; intros s Hmode Hfull; [done |].
  rewrite run_cons.
  destruct (dispatch_inserting_full id ev s layerType Hmode Hfull)
    as (Hmode' & Hlayers & Hids & Hsel & Hundo).
  destruct (IH _ Hmode') as (-> & -> & -> & -> & ->); [by rewrite Hlayers |].
  by rewrite Hlayers, Hids, Hsel, Hundo.
Qed.

End InsertionTool.


Lemma full_board_keeps_inserting_witness :
  canvasState (run (U := SpecUtils.utils)
                 [("x", PointerDown (pointerAt 1 1));
                  ("x", PointerUp (releasedAt 1 1));
                  ("y", PointerUp (releasedAt 2 2))]
                 (setCanvasState (StateInserting Note) fullBoard))
  = StateInserting Note.
Proof.
  apply (full_board_keeps_inserting (U := SpecUtils.utils)
           [("x", PointerDown (pointerAt 1 1));
            ("x", PointerUp (releasedAt 1 1));
            ("y", PointerUp (releasedAt 2 2))]
           (setCanvasState (StateInserting Note) fullBoard) Note eq_refl).
  vm_compute. lia.
Defined.
